(** * Mullet Method demo: the resolution-and-assembly pipeline

    A shallow embedding of [app.py] and [models.py], with the theme
    settings of [config.py]: the dynamic route (site lookup, page lookup,
    content blocks, navigation, template path), the model validators, the
    two block renderers and the block-type registry, followed by the
    properties of these functions.

    Modelling conventions.
    - Python [str] is [string]; the character class functions
      ([str.lower], [str.isalnum], the whitespace of [str.strip()]) are
      modelled on ASCII, characters above 127 being left alone.
    - Python [int] is [Z]; [None]-able values are [option].
    - A table is the list of its rows in the engine's scan order;
      [filter_by(...)] keeps the rows whose columns are equal to the given
      values, [.first()] is the head of the filtered rows.
    - [order_by(col)] belongs to the SQL engine.  The code asks for one sort
      column and nothing else, so the engine is an interface
      ([StoreEngine]) of which only the SQL contract is known: the result is
      a permutation of the rows, non-decreasing in the sort column.
    - Python recursion is modelled with a depth budget: [None] means that the
      recursion went deeper than the budget allows. *)

From Stdlib Require Import List String Ascii ZArith Bool Lia Arith.
From Stdlib Require Import Permutation Sorted.
Import ListNotations.

Local Open Scope string_scope.
Local Open Scope Z_scope.

(** ** Python string operations *)

Module PyStr.

Definition slash : ascii := "/"%char.
Definition newline : ascii := "010"%char.

Definition is_char (c : ascii) : ascii -> bool := Ascii.eqb c.

(** Whitespace as [str.strip()] and [str.isspace] see it, below 128:
    tab, LF, VT, FF, CR, the four separators 28..31 and the blank. *)
Definition isspace (c : ascii) : bool :=
  let n := nat_of_ascii c in
  ((9 <=? n) && (n <=? 13) || (28 <=? n) && (n <=? 32))%nat.

Definition is_upper (c : ascii) : bool :=
  let n := nat_of_ascii c in ((65 <=? n) && (n <=? 90))%nat.

Definition is_alnum_char (c : ascii) : bool :=
  let n := nat_of_ascii c in
  ((48 <=? n) && (n <=? 57) || (65 <=? n) && (n <=? 90)
   || (97 <=? n) && (n <=? 122))%nat.

Definition lower_char (c : ascii) : ascii :=
  if is_upper c then ascii_of_nat (nat_of_ascii c + 32) else c.

(** [s.lower()] *)
Fixpoint lower (s : string) : string :=
  match s with
  | EmptyString => EmptyString
  | String c s' => String (lower_char c) (lower s')
  end.

Fixpoint forallb_str (p : ascii -> bool) (s : string) : bool :=
  match s with
  | EmptyString => true
  | String c s' => p c && forallb_str p s'
  end.

(** [c in s] for a one-character [c] *)
Fixpoint contains (c : ascii) (s : string) : bool :=
  match s with
  | EmptyString => false
  | String d s' => Ascii.eqb c d || contains c s'
  end.

(** truth value of a string: [bool(s)] *)
Definition truthy (s : string) : bool :=
  match s with EmptyString => false | String _ _ => true end.

(** [s.isalnum()]: false on the empty string *)
Definition isalnum (s : string) : bool :=
  truthy s && forallb_str is_alnum_char s.

(** [s.replace(c, '')] for a one-character [c] *)
Fixpoint remove_char (c : ascii) (s : string) : string :=
  match s with
  | EmptyString => EmptyString
  | String d s' =>
      if Ascii.eqb d c then remove_char c s' else String d (remove_char c s')
  end.

(** [s.lstrip(chars)], the characters to strip given as a predicate *)
Fixpoint lstrip (p : ascii -> bool) (s : string) : string :=
  match s with
  | EmptyString => EmptyString
  | String c s' => if p c then lstrip p s' else s
  end.

(** [s.rstrip(chars)]: a character goes when everything after it goes *)
Fixpoint rstrip (p : ascii -> bool) (s : string) : string :=
  match s with
  | EmptyString => EmptyString
  | String c s' =>
      match rstrip p s' with
      | EmptyString => if p c then EmptyString else String c EmptyString
      | r => String c r
      end
  end.

Definition strip_chars (p : ascii -> bool) (s : string) : string :=
  rstrip p (lstrip p s).

(** [s.strip()] *)
Definition strip (s : string) : string := strip_chars isspace s.

(** [s.split(sep)] for a one-character separator: never the empty list *)
Fixpoint split (sep : ascii) (s : string) : list string :=
  match s with
  | EmptyString => [EmptyString]
  | String c s' =>
      if Ascii.eqb sep c then EmptyString :: split sep s'
      else match split sep s' with
           | [] => [String c EmptyString]
           | h :: t => String c h :: t
           end
  end.

(** [''.join(l)] *)
Definition join_empty (l : list string) : string :=
  fold_right String.append EmptyString l.

(** [sep.join(l)] *)
Fixpoint join (sep : string) (l : list string) : string :=
  match l with
  | [] => EmptyString
  | [x] => x
  | x :: l' => x ++ sep ++ join sep l'
  end.

(** [needle in s] for strings *)
Fixpoint infix (needle s : string) : bool :=
  String.prefix needle s ||
  match s with
  | EmptyString => false
  | String _ s' => infix needle s'
  end.

(** [x in l] for a list of strings *)
Definition mem (x : string) (l : list string) : bool :=
  existsb (String.eqb x) l.

Fixpoint existsb_str (p : ascii -> bool) (s : string) : bool :=
  match s with
  | EmptyString => false
  | String c s' => p c || existsb_str p s'
  end.

(** [re.sub(r'[^...]', '', s)] for a character class: the characters of the
    class are kept. *)
Fixpoint filter_str (keep : ascii -> bool) (s : string) : string :=
  match s with
  | EmptyString => EmptyString
  | String c s' =>
      if keep c then String c (filter_str keep s') else filter_str keep s'
  end.

(** [re.sub(r'\s+', '-', s)]: every run of whitespace becomes one hyphen.
    A whitespace character writes the hyphen when it ends its run. *)
Fixpoint sub_space_runs (s : string) : string :=
  match s with
  | EmptyString => EmptyString
  | String c s' =>
      if isspace c then
        match s' with
        | String d _ =>
            if isspace d then sub_space_runs s'
            else String "-" (sub_space_runs s')
        | EmptyString => String "-" EmptyString
        end
      else String c (sub_space_runs s')
  end.

(** [s[:n]] *)
Fixpoint take (n : nat) (s : string) : string :=
  match n, s with
  | S n', String c s' => String c (take n' s')
  | _, _ => EmptyString
  end.

(** [s.replace(old, new)] for a two-character [old]: leftmost occurrences,
    not overlapping. *)
Fixpoint replace2 (a b : ascii) (new : string) (s : string) : string :=
  match s with
  | EmptyString => EmptyString
  | String c s' =>
      match s' with
      | String d s'' =>
          if Ascii.eqb c a && Ascii.eqb d b
          then new ++ replace2 a b new s''
          else String c (replace2 a b new s')
      | EmptyString => String c EmptyString
      end
  end.

(** [s.startswith(p)] *)
Definition startswith (p s : string) : bool := String.prefix p s.

End PyStr.


(** ** Results of the validators: a value or a raised [ValueError] *)

Inductive validated (A : Type) : Type :=
| Accepted (a : A)
| ValueError (message : string).
Arguments Accepted {A} a.
Arguments ValueError {A} message.

(** [a or b] on an optional string: [None] and [''] are falsy *)
Definition str_or (a : option string) (b : string) : string :=
  match a with
  | Some s => if PyStr.truthy s then s else b
  | None => b
  end.

(** ** Python dicts with string keys, in insertion order *)

Definition dict (V : Type) : Type := list (string * V).

(** [d.get(key, default)] *)
Fixpoint dict_get {V : Type} (d : dict V) (key : string) (default : V) : V :=
  match d with
  | [] => default
  | (k, v) :: d' => if String.eqb k key then v else dict_get d' key default
  end.

(** [d[key] = value]: overwrite in place or append *)
Fixpoint dict_set {V : Type} (d : dict V) (key : string) (value : V)
  : dict V :=
  match d with
  | [] => [(key, value)]
  | (k, v) :: d' =>
      if String.eqb k key then (k, value) :: d'
      else (k, v) :: dict_set d' key value
  end.

(** ** config.py: the theme settings *)

Module ThemeConfig.

Record settings := {
  name : string;
  description : string;
  color_scheme : string;
  layout : string;
  features : list string
}.

Definition AVAILABLE_THEMES : list string :=
  ["corporate"; "blog"; "portfolio"; "default"].

Definition default_settings : settings :=
  {| name := "Default";
     description := "Simple default theme";
     color_scheme := "gray";
     layout := "simple";
     features := ["basic_navigation"] |}.

Definition THEME_SETTINGS : dict settings :=
  [("corporate",
    {| name := "Corporate";
       description := "Clean, professional business theme";
       color_scheme := "blue";
       layout := "fixed-header";
       features := ["contact_form"; "newsletter"; "testimonials"] |});
   ("blog",
    {| name := "Blog";
       description := "Blog-style layout with sidebar";
       color_scheme := "purple";
       layout := "sidebar";
       features := ["comments"; "tags"; "archive"; "search"] |});
   ("portfolio",
    {| name := "Portfolio";
       description := "Creative portfolio with gallery";
       color_scheme := "pink";
       layout := "overlay-header";
       features := ["gallery"; "lightbox"; "animations"] |});
   ("default", default_settings)].

(** [cls.THEME_SETTINGS.get(theme_name, cls.THEME_SETTINGS['default'])] *)
Definition get_theme_config (theme_name : string) : settings :=
  dict_get THEME_SETTINGS theme_name
    (dict_get THEME_SETTINGS "default" default_settings).

Definition validate_theme (theme_name : string) : bool :=
  PyStr.mem theme_name AVAILABLE_THEMES.

End ThemeConfig.

(** ** models.py *)

(** The columns the pipeline reads; descriptions, JSON configuration and the
    timestamps of [TimestampMixin] are left out. *)

Module Site.

Record t := mk {
  id : Z;
  path_prefix : string;
  name : string;
  template_theme : string;
  is_active : bool
}.

Definition validate_path_prefix (path_prefix : string) : validated string :=
  if negb (PyStr.truthy path_prefix)
     || negb (PyStr.isalnum
                (PyStr.remove_char "_" (PyStr.remove_char "-" path_prefix)))
  then ValueError
         "Path prefix must contain only alphanumeric characters, hyphens, and underscores"
  else Accepted (PyStr.lower path_prefix).

Definition allowed_themes : list string :=
  ["corporate"; "blog"; "portfolio"; "default"].

Definition validate_template_theme (template_theme : string)
  : validated string :=
  if negb (PyStr.mem template_theme allowed_themes)
  then ValueError
         ("Template theme must be one of: " ++ PyStr.join ", " allowed_themes)
  else Accepted template_theme.

End Site.

Module Page.

Record t := mk {
  id : Z;
  site_id : Z;
  path : string;
  title : string;
  content_type : string;
  is_active : bool
}.

Definition validate_path (path : string) : validated string :=
  if negb (PyStr.truthy path)
     || negb (PyStr.isalnum
                (PyStr.remove_char "/"
                   (PyStr.remove_char "_" (PyStr.remove_char "-" path))))
  then ValueError
         "Page path must contain only alphanumeric characters, hyphens, underscores, and slashes"
  else Accepted (PyStr.lower path).

Definition allowed_content_types : list string :=
  ["standard"; "blog_post"; "portfolio_item"; "landing_page"].

Definition validate_content_type (content_type : string) : validated string :=
  if negb (PyStr.mem content_type allowed_content_types)
  then ValueError
         ("Content type must be one of: "
            ++ PyStr.join ", " allowed_content_types)
  else Accepted content_type.

(** [f"/{self.site.path_prefix}/{self.path}"], the site of the page given *)
Definition get_full_url (site : Site.t) (self : t) : string :=
  "/" ++ Site.path_prefix site ++ "/" ++ path self.

End Page.

Module ContentBlock.

Record t := mk {
  id : Z;
  page_id : Z;
  block_type : string;
  title : option string;
  content : string;
  order_index : Z;
  is_active : bool
}.

Definition allowed_types : list string :=
  ["text"; "html"; "image"; "list"; "quote"; "code"; "video"; "gallery"].

Definition validate_block_type (block_type : string) : validated string :=
  if negb (PyStr.mem block_type allowed_types)
  then ValueError
         ("Block type must be one of: " ++ PyStr.join ", " allowed_types)
  else Accepted block_type.

(** The [if]/[elif] chain of [render] looks at [block_type] only: the arm
    it takes. *)
Inductive arm := Text | Html | Image | List | Quote | Code | Fallback.

Definition render_arm (block_type : string) : arm :=
  if String.eqb block_type "text" then Text
  else if String.eqb block_type "html" then Html
  else if String.eqb block_type "image" then Image
  else if String.eqb block_type "list" then List
  else if String.eqb block_type "quote" then Quote
  else if String.eqb block_type "code" then Code
  else Fallback.

(** [[item.strip() for item in content.split('\n') if item.strip()]] *)
Definition list_items (content : string) : list string :=
  map PyStr.strip
    (filter (fun item => PyStr.truthy (PyStr.strip item))
       (PyStr.split PyStr.newline content)).

Definition li (item : string) : string := "<li>" ++ item ++ "</li>".

Definition render (self : t) : string :=
  match render_arm (block_type self) with
  | Text => "<div class='content-block text'><p>" ++ content self ++ "</p></div>"
  | Html => "<div class='content-block html'>" ++ content self ++ "</div>"
  | Image =>
      let alt_text := str_or (title self) "Content Image" in
      "<div class='content-block image'><img src='" ++ content self
        ++ "' alt='" ++ alt_text ++ "'></div>"
  | List =>
      let items := list_items (content self) in
      let list_html := "<ul>" ++ PyStr.join_empty (map li items) ++ "</ul>" in
      "<div class='content-block list'>" ++ list_html ++ "</div>"
  | Quote =>
      "<div class='content-block quote'><blockquote>" ++ content self
        ++ "</blockquote></div>"
  | Code =>
      "<div class='content-block code'><pre><code>" ++ content self
        ++ "</code></pre></div>"
  | Fallback =>
      "<div class='content-block " ++ block_type self ++ "'>" ++ content self
        ++ "</div>"
  end.

End ContentBlock.

Module NavigationItem.

Record t := mk {
  id : Z;
  site_id : Z;
  label : string;
  url : string;
  parent_id : option Z;
  order_index : Z;
  is_external : bool;
  is_active : bool
}.

Definition validate_url (url : string) : validated string :=
  if negb (PyStr.truthy url)
  then ValueError "Navigation URL cannot be empty"
  else
    if negb (PyStr.startswith "/" url || PyStr.startswith "http" url)
    then Accepted ("/" ++ url)
    else Accepted url.

Definition get_full_url (site : Site.t) (self : t) : string :=
  if is_external self || PyStr.startswith "http" (url self) then url self
  else if PyStr.startswith "/" (url self) then url self
  else "/" ++ Site.path_prefix site ++ "/" ++ url self.

End NavigationItem.

(** *** The plugin registry [CONTENT_BLOCK_TYPES]

    A dict from type tag to block class, kept in insertion order.  The
    classes are the model class itself and whatever a plugin registers. *)

Inductive block_class := ContentBlockClass | PluginClass (class_name : string).

Definition registry := dict block_class.

Definition CONTENT_BLOCK_TYPES : registry :=
  map (fun tag => (tag, ContentBlockClass)) ContentBlock.allowed_types.

Definition register_content_block_type
  (types : registry) (block_type : string) (block_class : block_class)
  : registry :=
  dict_set types block_type block_class.

Definition get_content_block_class (types : registry) (block_type : string)
  : block_class :=
  dict_get types block_type ContentBlockClass.

(** ** The store *)

Record Db := {
  sites : list Site.t;
  pages : list Page.t;
  content_blocks : list ContentBlock.t;
  navigation_items : list NavigationItem.t
}.

(** What SQL promises of [ORDER BY col]: the same rows, [col] ascending.
    Nothing is promised about rows with equal [col]. *)
Class StoreEngine := {
  order_by : forall {A : Type}, (A -> Z) -> list A -> list A;
  order_by_permutation :
    forall (A : Type) (col : A -> Z) (rows : list A),
      Permutation (order_by col rows) rows;
  order_by_sorted :
    forall (A : Type) (col : A -> Z) (rows : list A),
      StronglySorted (fun x y => col x <= col y) (order_by col rows)
}.

(** Two engines that keep the promise.  Both sort by insertion; they differ
    in where a row goes among rows with an equal sort column. *)
Fixpoint insert_row {A : Type} (before : Z -> Z -> bool) (col : A -> Z)
  (x : A) (rows : list A) : list A :=
  match rows with
  | [] => [x]
  | y :: rows' =>
      if before (col x) (col y) then x :: rows
      else y :: insert_row before col x rows'
  end.

Definition insertion_sort {A : Type} (before : Z -> Z -> bool) (col : A -> Z)
  (rows : list A) : list A :=
  fold_right (insert_row before col) [] rows.

Definition sorting_engine (before : Z -> Z -> bool)
  (before_le : forall a b, before a b = true -> a <= b)
  (after_ge : forall a b, before a b = false -> b <= a) : StoreEngine.
Proof.
  refine {| order_by := fun A col rows => insertion_sort before col rows |}.
  - intros A col rows. induction rows as [|x rows IH]; simpl.
    + constructor.
    + apply Permutation_trans with (x :: insertion_sort before col rows).
      * clear IH. generalize (insertion_sort before col rows) as l.
        induction l as [|y l IHl]; simpl.
        -- apply Permutation_refl.
        -- destruct (before (col x) (col y)).
           ++ apply Permutation_refl.
           ++ apply Permutation_trans with (y :: x :: l).
              ** apply perm_skip, IHl.
              ** apply perm_swap.
      * apply perm_skip, IH.
  - intros A col rows. induction rows as [|x rows IH]; simpl.
    + constructor.
    + revert IH. generalize (insertion_sort before col rows) as l.
      induction l as [|y l IHl]; simpl; intros Hs.
      * constructor; constructor.
      * destruct (before (col x) (col y)) eqn:Hb.
        -- constructor; [exact Hs|].
           inversion Hs as [|? ? Hs' Hall]; subst.
           constructor; [apply before_le, Hb|].
           apply Forall_impl with (2 := Hall).
           intros z Hz. apply before_le in Hb. lia.
        -- inversion Hs as [|? ? Hs' Hall]; subst.
           constructor; [apply IHl, Hs'|].
           assert (Hperm : Permutation (insert_row before col x l) (x :: l)).
           { clear. induction l as [|z l IHl]; simpl.
             - apply Permutation_refl.
             - destruct (before (col x) (col z)).
               + apply Permutation_refl.
               + apply Permutation_trans with (z :: x :: l).
                 * apply perm_skip, IHl.
                 * apply perm_swap. }
           apply Forall_forall. intros z Hz.
           apply (Permutation_in _ Hperm) in Hz. destruct Hz as [<-|Hz].
           ++ apply after_ge, Hb.
           ++ rewrite Forall_forall in Hall. apply Hall, Hz.
Defined.

(** Equal sort columns come out in scan order (oldest row first). *)
Definition scan_order_engine : StoreEngine.
Proof.
  apply (sorting_engine Z.leb); intros a b H;
    [apply Z.leb_le in H | apply Z.leb_gt in H]; lia.
Defined.

(** Equal sort columns come out against scan order (newest row first). *)
Definition newest_first_engine : StoreEngine.
Proof.
  apply (sorting_engine Z.ltb); intros a b H;
    [apply Z.ltb_lt in H | apply Z.ltb_ge in H]; lia.
Defined.

(** ** app.py *)

Unset Elimination Schemes.
(** One entry of the navigation menu: the dict with keys [id], [label],
    [url] and [children]. *)
Inductive nav_entry :=
| NavEntry (id : Z) (label url : string) (children : list nav_entry).
Set Elimination Schemes.

(** A list comprehension whose element expression may fail to return. *)
Fixpoint traverse {A B : Type} (f : A -> option B) (l : list A)
  : option (list B) :=
  match l with
  | [] => Some []
  | x :: l' =>
      match f x with
      | None => None
      | Some y =>
          match traverse f l' with
          | None => None
          | Some ys => Some (y :: ys)
          end
      end
  end.

Definition opt_Z_eqb (a b : option Z) : bool :=
  match a, b with
  | Some x, Some y => x =? y
  | None, None => true
  | _, _ => false
  end.

(** [Site.query.filter_by(path_prefix=site_prefix, is_active=True).first()] *)
Definition resolve_site (db : Db) (site_prefix : string) : option Site.t :=
  hd_error
    (filter (fun s => String.eqb (Site.path_prefix s) site_prefix
                      && Bool.eqb (Site.is_active s) true)
       (sites db)).

(** [Page.query.filter_by(site_id=site.id, path=page_path,
    is_active=True).first()] *)
Definition resolve_page (db : Db) (site : Site.t) (page_path : string)
  : option Page.t :=
  hd_error
    (filter (fun p => (Page.site_id p =? Site.id site)
                      && String.eqb (Page.path p) page_path
                      && Bool.eqb (Page.is_active p) true)
       (pages db)).

(** [f"themes/{theme}/{template_name}"] *)
Definition get_template_path (site : Site.t) (template_name : string)
  : string :=
  let theme := Site.template_theme site in
  "themes/" ++ theme ++ "/" ++ template_name.

Section Queries.

Context {engine : StoreEngine}.

(** [ContentBlock.query.filter_by(page_id=page.id, is_active=True)
    .order_by(ContentBlock.order_index).all()] *)
Definition get_content_blocks (db : Db) (page : Page.t)
  : list ContentBlock.t :=
  order_by ContentBlock.order_index
    (filter (fun b => (ContentBlock.page_id b =? Page.id page)
                      && Bool.eqb (ContentBlock.is_active b) true)
       (content_blocks db)).

(** The query of [get_nav_children]: no [site_id] in it. *)
Definition active_children (db : Db) (parent_id : Z)
  : list NavigationItem.t :=
  order_by NavigationItem.order_index
    (filter (fun c => opt_Z_eqb (NavigationItem.parent_id c) (Some parent_id)
                      && Bool.eqb (NavigationItem.is_active c) true)
       (navigation_items db)).

(** [depth] bounds the number of nested [get_nav_children] frames. *)
Fixpoint get_nav_children (depth : nat) (db : Db) (parent_id : Z)
  : option (list nav_entry) :=
  match depth with
  | O => None
  | S depth' =>
      let children := active_children db parent_id in
      traverse
        (fun child =>
           match get_nav_children depth' db (NavigationItem.id child) with
           | None => None
           | Some sub =>
               Some (NavEntry (NavigationItem.id child)
                       (NavigationItem.label child)
                       (NavigationItem.url child) sub)
           end)
        children
  end.

(** The query of [build_navigation]: the active items of the site with no
    parent. *)
Definition top_level_items (db : Db) (site : Site.t)
  : list NavigationItem.t :=
  order_by NavigationItem.order_index
    (filter (fun i => (NavigationItem.site_id i =? Site.id site)
                      && opt_Z_eqb (NavigationItem.parent_id i) None
                      && Bool.eqb (NavigationItem.is_active i) true)
       (navigation_items db)).

Definition build_navigation (depth : nat) (db : Db) (site : Site.t)
  : option (list nav_entry) :=
  let nav_items := top_level_items db site in
  traverse
    (fun item =>
       match get_nav_children depth db (NavigationItem.id item) with
       | None => None
       | Some children =>
           Some (NavEntry (NavigationItem.id item)
                   (NavigationItem.label item)
                   (NavigationItem.url item) children)
       end)
    nav_items.

End Queries.

(** The helper [render_content_blocks]: its own [if]/[elif] chain, with
    four arms and a default. *)
Inductive helper_arm := HText | HHtml | HImage | HList | HUnknown.

Definition helper_arm_of (block_type : string) : helper_arm :=
  if String.eqb block_type "text" then HText
  else if String.eqb block_type "html" then HHtml
  else if String.eqb block_type "image" then HImage
  else if String.eqb block_type "list" then HList
  else HUnknown.

(** [[f'<li>{item}</li>' for item in items if item.strip()]]: the kept
    lines go out as they are. *)
Definition helper_list_items (content : string) : list string :=
  filter (fun item => PyStr.truthy (PyStr.strip item))
    (PyStr.split PyStr.newline content).

Definition render_block_helper (block : ContentBlock.t) : string :=
  match helper_arm_of (ContentBlock.block_type block) with
  | HText =>
      "<div class='content-block text'>" ++ ContentBlock.content block
        ++ "</div>"
  | HHtml =>
      "<div class='content-block html'>" ++ ContentBlock.content block
        ++ "</div>"
  | HImage =>
      "<div class='content-block image'><img src='"
        ++ ContentBlock.content block ++ "' alt='Content Image'></div>"
  | HList =>
      let items := PyStr.split PyStr.newline (ContentBlock.content block) in
      let list_html :=
        "<ul>"
          ++ PyStr.join_empty
               (map ContentBlock.li
                  (filter (fun item => PyStr.truthy (PyStr.strip item)) items))
          ++ "</ul>" in
      "<div class='content-block list'>" ++ list_html ++ "</div>"
  | HUnknown =>
      "<div class='content-block unknown'>" ++ ContentBlock.content block
        ++ "</div>"
  end.

Definition render_content_blocks (content_blocks : list ContentBlock.t)
  : string :=
  PyStr.join (String PyStr.newline EmptyString)
    (map render_block_helper content_blocks).

(** *** The dynamic route

    Exceptions that can leave the [try] block.  [abort(code)] raises an
    [HTTPException]; the store can raise [SQLAlchemyError]; a recursion
    deeper than the interpreter allows raises [RecursionError]. *)
Inductive exn :=
| HTTPException (code : Z)
| SQLAlchemyError
| RecursionError.

(** The calls the route makes, in the order it makes them. *)
Inductive stage :=
| ResolveSite (site_prefix : string)
| ResolvePage (site_id : Z) (page_path : string)
| GetContentBlocks (page_id : Z)
| BuildNavigation (site_id : Z)
| GetTemplatePath (theme template_name : string)
| RenderTemplate (template_path : string).

(** A computation that logs the stages it calls and returns or raises. *)
Definition traced (A : Type) : Type := (list stage * (exn + A))%type.

Definition ret {A : Type} (a : A) : traced A := ([], inr a).

Definition raise {A : Type} (e : exn) : traced A := ([], inl e).

Definition abort {A : Type} (code : Z) : traced A :=
  raise (HTTPException code).

Definition bind {A B : Type} (m : traced A) (k : A -> traced B) : traced B :=
  match m with
  | (log, inl e) => (log, inl e)
  | (log, inr a) =>
      match k a with
      | (log', r) => ((log ++ log')%list, r)
      end
  end.

(** Calling stage [s], which returns [a]. *)
Definition call {A : Type} (s : stage) (a : A) : traced A := ([s], inr a).

(** Calling stage [s], which returns unless the recursion is too deep. *)
Definition call_rec {A : Type} (s : stage) (a : option A) : traced A :=
  match a with
  | Some v => ([s], inr v)
  | None => ([s], inl RecursionError)
  end.

Notation "x <- m ;; k" := (bind m (fun x => k))
  (at level 61, m at next level, right associativity).

(** The keyword arguments of the [render_template] call. *)
Record template_call := {
  template_path : string;
  ctx_site : Site.t;
  ctx_page : Page.t;
  ctx_content_blocks : list ContentBlock.t;
  ctx_navigation : list nav_entry
}.

(** [url_path.strip('/').split('/')] *)
Definition path_parts (url_path : string) : list string :=
  PyStr.split PyStr.slash
    (PyStr.strip_chars (PyStr.is_char PyStr.slash) url_path).

(** [path_parts[1] if len(path_parts) > 1 else 'home'], given
    [path_parts[1:]] *)
Definition page_path_of (rest : list string) : string :=
  match rest with
  | p :: _ => p
  | [] => "home"
  end.

Section Route.

Context {engine : StoreEngine}.

(** The body of the [try] statement. *)
Definition dynamic_route_body (depth : nat) (db : Db) (url_path : string)
  : traced template_call :=
  match path_parts url_path with
  | [] => abort 404
  | site_prefix :: rest =>
      let page_path := page_path_of rest in
      site <- call (ResolveSite site_prefix) (resolve_site db site_prefix) ;;
      match site with
      | None => abort 404
      | Some site =>
          page <- call (ResolvePage (Site.id site) page_path)
                    (resolve_page db site page_path) ;;
          match page with
          | None => abort 404
          | Some page =>
              content_blocks <- call (GetContentBlocks (Page.id page))
                                  (get_content_blocks db page) ;;
              navigation <- call_rec (BuildNavigation (Site.id site))
                              (build_navigation depth db site) ;;
              template_path <- call (GetTemplatePath (Site.template_theme site)
                                       "page.html")
                                 (get_template_path site "page.html") ;;
              call (RenderTemplate template_path)
                {| template_path := template_path;
                   ctx_site := site;
                   ctx_page := page;
                   ctx_content_blocks := content_blocks;
                   ctx_navigation := navigation |}
          end
      end
  end.

(** [except SQLAlchemyError] comes first, [except Exception] second; every
    exception above is an [Exception], the [HTTPException] of [abort]
    included.  Both handlers call [abort(500)]. *)
Definition is_SQLAlchemyError (e : exn) : bool :=
  match e with SQLAlchemyError => true | _ => false end.

Definition dynamic_route (depth : nat) (db : Db) (url_path : string)
  : traced template_call :=
  match dynamic_route_body depth db url_path with
  | (log, inr rendered) => (log, inr rendered)
  | (log, inl e) =>
      if is_SQLAlchemyError e then (log, inl (HTTPException 500))
      else (log, inl (HTTPException 500))
  end.

End Route.

(** What the client gets: the rendered page, or the error page of the
    [errorhandler] for the code [abort] was called with. *)
Inductive response :=
| Rendered (page : template_call)
| ErrorPage (status : Z).

Definition respond (r : traced template_call) : response :=
  match snd r with
  | inr rendered => Rendered rendered
  | inl (HTTPException code) => ErrorPage code
  | inl _ => ErrorPage 500
  end.

(** *** The directory of sites

    One object of the JSON list of [api_sites]. *)
Record site_entry := {
  entry_id : Z;
  entry_name : string;
  entry_path_prefix : string;
  entry_template_theme : string;
  entry_url : string
}.

(** [Site.query.filter_by(is_active=True).all()], then one object per
    site. *)
Definition api_sites (db : Db) : list site_entry :=
  map (fun site =>
         {| entry_id := Site.id site;
            entry_name := Site.name site;
            entry_path_prefix := Site.path_prefix site;
            entry_template_theme := Site.template_theme site;
            entry_url := "/" ++ Site.path_prefix site |})
    (filter (fun s => Bool.eqb (Site.is_active s) true) (sites db)).

(** ** add_restaurant.py *)

(** [create_path_prefix]: drop what is not a letter, a digit or whitespace,
    strip, turn the runs of whitespace into hyphens, lowercase, and keep
    twenty characters at most, without hyphens at the end. *)
Definition create_path_prefix (name : string) : string :=
  let prefix :=
    PyStr.filter_str (fun c => PyStr.is_alnum_char c || PyStr.isspace c) name in
  let prefix := PyStr.sub_space_runs (PyStr.strip prefix) in
  let prefix := PyStr.lower prefix in
  if (20 <? String.length prefix)%nat
  then PyStr.rstrip (PyStr.is_char "-") (PyStr.take 20 prefix)
  else prefix.

(** *** Constructing rows

    A model constructor sets the attributes in the order of its keyword
    arguments, and
    every attribute with a validator takes what the validator returns, or
    the constructor raises.  The columns left out get their defaults. *)

Definition vbind {A B : Type} (v : validated A) (k : A -> validated B)
  : validated B :=
  match v with
  | Accepted a => k a
  | ValueError message => ValueError message
  end.

Notation "x <~ v ;; k" := (vbind v (fun x => k))
  (at level 61, v at next level, right associativity).

(** [Site(path_prefix=..., name=..., template_theme=...)] *)
Definition new_site (id : Z) (path_prefix name template_theme : string)
  : validated Site.t :=
  path_prefix <~ Site.validate_path_prefix path_prefix ;;
  template_theme <~ Site.validate_template_theme template_theme ;;
  Accepted (Site.mk id path_prefix name template_theme true).

(** [NavigationItem(site_id=..., label=..., url=..., order_index=...)] *)
Definition new_navigation_item (id site_id : Z) (label url : string)
  (order_index : Z) : validated NavigationItem.t :=
  url <~ NavigationItem.validate_url url ;;
  Accepted (NavigationItem.mk id site_id label url None order_index false true).

(** [Page(site_id=..., path=..., title=..., content_type=...)] *)
Definition new_page (id site_id : Z) (path title content_type : string)
  : validated Page.t :=
  path <~ Page.validate_path path ;;
  content_type <~ Page.validate_content_type content_type ;;
  Accepted (Page.mk id site_id path title content_type true).

(** [ContentBlock(page_id=..., block_type=..., title=..., content=...,
    order_index=...)] *)
Definition new_content_block (id page_id : Z) (block_type : string)
  (title : option string) (content : string) (order_index : Z)
  : validated ContentBlock.t :=
  block_type <~ ContentBlock.validate_block_type block_type ;;
  Accepted (ContentBlock.mk id page_id block_type title content order_index true).

(** The line feed and the double quote, as strings. *)
Definition LF : string := String PyStr.newline EmptyString.
Definition DQ : string := String (ascii_of_nat 34) EmptyString.

(** How a script ends: it commits and returns [True], it returns [False]
    with nothing committed, or a constructor raises. *)
Inductive script_outcome :=
| Committed (db : Db)
| ReturnedFalse
| ScriptRaised (message : string).

(** [add_restaurant_site].  The store numbers the rows it is given: the
    site gets [site_id], the four navigation items [nav_id] and the three
    keys after it, the four pages [page_id] and the three after it, the
    nine blocks [block_id] and the eight after it. *)
Definition add_restaurant_site (site_id nav_id page_id block_id : Z)
  (db : Db) (name description : string) : script_outcome :=
  let path_prefix := create_path_prefix name in
  let existing_site :=
    hd_error
      (filter (fun s => String.eqb (Site.path_prefix s) path_prefix)
         (sites db)) in
  match existing_site with
  | Some _ => ReturnedFalse
  | None =>
      let rows :=
        site <~ new_site site_id path_prefix name "corporate" ;;
        n1 <~ new_navigation_item nav_id (Site.id site) "Home" "home" 1 ;;
        n2 <~ new_navigation_item (nav_id + 1) (Site.id site) "Menu" "menu" 2 ;;
        n3 <~ new_navigation_item (nav_id + 2) (Site.id site)
                "About" "about" 3 ;;
        n4 <~ new_navigation_item (nav_id + 3) (Site.id site)
                "Reservations" "reservations" 4 ;;
        home_page <~ new_page page_id (Site.id site) "home" name "standard" ;;
        menu_page <~ new_page (page_id + 1) (Site.id site)
                       "menu" "Our Menu" "standard" ;;
        about_page <~ new_page (page_id + 2) (Site.id site)
                        "about" "About Us" "standard" ;;
        reservations_page <~ new_page (page_id + 3) (Site.id site)
                               "reservations" "Make a Reservation"
                               "standard" ;;
        h1 <~ new_content_block block_id (Page.id home_page) "text"
                (Some ("Welcome to " ++ name))
                (description
                   ++ ". Join us for an exceptional dining experience with carefully crafted dishes and warm hospitality.")
                1 ;;
        h2 <~ new_content_block (block_id + 1) (Page.id home_page) "list"
                (Some ("Why Choose " ++ name))
                ("Fresh, high-quality ingredients" ++ LF
                   ++ "Exceptional service and atmosphere" ++ LF
                   ++ "Carefully crafted menu" ++ LF
                   ++ "Welcoming environment for all occasions" ++ LF
                   ++ "Commitment to culinary excellence")
                2 ;;
        m1 <~ new_content_block (block_id + 2) (Page.id menu_page) "text"
                (Some "Our Signature Dishes")
                ("At " ++ name
                   ++ ", every dish is prepared with passion and attention to detail using the finest ingredients.")
                1 ;;
        m2 <~ new_content_block (block_id + 3) (Page.id menu_page) "list"
                (Some "Featured Items")
                ("Chef's Special of the Day - Market Price" ++ LF
                   ++ "Signature Appetizer Platter - $18" ++ LF
                   ++ "House Specialty Entree - $26" ++ LF
                   ++ "Seasonal Dessert Selection - $12")
                2 ;;
        m3 <~ new_content_block (block_id + 4) (Page.id menu_page) "text"
                (Some "Dietary Options")
                "We offer vegetarian, vegan, and gluten-free options. Please inform your server of any dietary restrictions."
                3 ;;
        a1 <~ new_content_block (block_id + 5) (Page.id about_page) "text"
                (Some "Our Story")
                (name
                   ++ " was founded with a passion for exceptional cuisine and hospitality. We believe that great food brings people together and creates lasting memories.")
                1 ;;
        a2 <~ new_content_block (block_id + 6) (Page.id about_page) "quote"
                None
                "Great food is not just about taste—it's about creating experiences that bring joy to every moment."
                2 ;;
        r1 <~ new_content_block (block_id + 7) (Page.id reservations_page)
                "text" (Some "Book Your Table")
                ("We invite you to join us at " ++ name
                   ++ " for an unforgettable dining experience. Reservations are recommended, especially for weekend evenings.")
                1 ;;
        r2 <~ new_content_block (block_id + 8) (Page.id reservations_page)
                "html" (Some "Contact Information")
                ("<div class=" ++ DQ ++ "contact-info" ++ DQ
                   ++ "><h3>Reservations</h3><p><strong>Phone:</strong> (555) 123-DINE</p><p><strong>Email:</strong> reservations@"
                   ++ PyStr.remove_char "-" path_prefix
                   ++ ".com</p><p><strong>Address:</strong> 123 Restaurant Row<br>Culinary District, NY 10001</p></div>")
                2 ;;
        Accepted
          {| sites := (sites db ++ [site])%list;
             navigation_items :=
               (navigation_items db ++ [n1; n2; n3; n4])%list;
             pages :=
               (pages db
                  ++ [home_page; menu_page; about_page; reservations_page])%list;
             content_blocks :=
               (content_blocks db
                  ++ [h1; h2; m1; m2; m3; a1; a2; r1; r2])%list |} in
      match rows with
      | Accepted db' => Committed db'
      | ValueError message => ScriptRaised message
      end
  end.

(** ** add_content_block.py *)

Definition SUPPORTED_TYPES : list string :=
  ["text"; "html"; "list"; "quote"; "code"; "image"; "video"; "gallery"].

(** [content.replace('\\n', '\n')]: a backslash followed by [n] becomes a
    newline. *)
Definition unescape_newlines (content : string) : string :=
  PyStr.replace2 "\" "n" (String PyStr.newline EmptyString) content.

Definition process_content_by_type (content block_type : string) : string :=
  if String.eqb block_type "list" then
    let content := unescape_newlines content in
    let items :=
      map PyStr.strip
        (filter (fun item => PyStr.truthy (PyStr.strip item))
           (PyStr.split PyStr.newline content)) in
    PyStr.join (String PyStr.newline EmptyString) items
  else if String.eqb block_type "quote" then
    PyStr.strip (unescape_newlines content)
  else if String.eqb block_type "code" then unescape_newlines content
  else if String.eqb block_type "html" then unescape_newlines content
  else PyStr.strip (unescape_newlines content).

(** [db.func.max(col)] over the selected rows: [None] when there is none. *)
Definition sql_max (values : list Z) : option Z :=
  match values with
  | [] => None
  | v :: values' => Some (fold_left Z.max values' v)
  end.

(** [x or 0] on the scalar of the query: [None] and [0] are falsy. *)
Definition scalar_or_0 (x : option Z) : Z :=
  match x with
  | Some v => if v =? 0 then 0 else v
  | None => 0
  end.

(** How [add_content_block] ends: the block is committed, the function
    returns [False] with the store as it was, or the constructor of the
    block raises. *)
Inductive add_outcome :=
| Added (db : Db) (block : ContentBlock.t)
| Refused
| Raised (message : string).

(** [new_id] is the primary key the store gives the new row. *)
Definition add_content_block (new_id : Z) (db : Db)
  (site_prefix page_path block_type title content : string) : add_outcome :=
  if negb (PyStr.mem block_type SUPPORTED_TYPES) then Refused
  else
    match resolve_site db site_prefix with
    | None => Refused
    | Some site =>
        match resolve_page db site page_path with
        | None => Refused
        | Some page =>
            let max_order :=
              scalar_or_0
                (sql_max
                   (map ContentBlock.order_index
                      (filter
                         (fun b => (ContentBlock.page_id b =? Page.id page)
                                   && Bool.eqb (ContentBlock.is_active b) true)
                         (content_blocks db)))) in
            let next_order := max_order + 1 in
            let processed_content :=
              process_content_by_type content block_type in
            match ContentBlock.validate_block_type block_type with
            | ValueError message => Raised message
            | Accepted block_type =>
                let content_block :=
                  ContentBlock.mk new_id (Page.id page) block_type
                    (if PyStr.truthy (PyStr.strip title)
                     then Some title else None)
                    processed_content next_order true in
                Added
                  {| sites := sites db;
                     pages := pages db;
                     content_blocks :=
                       (content_blocks db ++ [content_block])%list;
                     navigation_items := navigation_items db |}
                  content_block
            end
        end
    end.

(** ** Vocabulary of the properties *)

(** The characters [validate_path_prefix] lets through, and those of
    [validate_path]. *)
Definition prefix_char (c : ascii) : bool :=
  PyStr.is_alnum_char c || Ascii.eqb c "-" || Ascii.eqb c "_".

Definition path_char (c : ascii) : bool :=
  prefix_char c || Ascii.eqb c "/".

(** The block with another content. *)
Definition with_content (block : ContentBlock.t) (content : string)
  : ContentBlock.t :=
  ContentBlock.mk (ContentBlock.id block) (ContentBlock.page_id block)
    (ContentBlock.block_type block) (ContentBlock.title block) content
    (ContentBlock.order_index block) (ContentBlock.is_active block).

(** Lowercase letters, digits and the hyphen. *)
Definition slug_char (c : ascii) : bool :=
  negb (PyStr.is_upper c) && (PyStr.is_alnum_char c || Ascii.eqb c "-").

Definition nav_entry_id (e : nav_entry) : Z :=
  match e with NavEntry id _ _ _ => id end.

Definition nav_entry_label (e : nav_entry) : string :=
  match e with NavEntry _ label _ _ => label end.

Definition nav_entry_url (e : nav_entry) : string :=
  match e with NavEntry _ _ url _ => url end.

Definition nav_entry_children (e : nav_entry) : list nav_entry :=
  match e with NavEntry _ _ _ children => children end.

(** The entries of a menu, at every level. *)
Fixpoint all_entries (e : nav_entry) : list nav_entry :=
  match e with
  | NavEntry _ _ _ children => e :: flat_map all_entries children
  end.

Definition menu_entries (menu : list nav_entry) : list nav_entry :=
  flat_map all_entries menu.

(** The items a site shows: its active items without a parent, and the
    active items whose parent is shown.  The site of a child is not
    looked at. *)
Inductive shown (db : Db) (site : Site.t) : NavigationItem.t -> Prop :=
| shown_top (item : NavigationItem.t) :
    In item (navigation_items db) ->
    NavigationItem.site_id item = Site.id site ->
    NavigationItem.parent_id item = None ->
    NavigationItem.is_active item = true ->
    shown db site item
| shown_child (child parent : NavigationItem.t) :
    In child (navigation_items db) ->
    NavigationItem.parent_id child = Some (NavigationItem.id parent) ->
    NavigationItem.is_active child = true ->
    shown db site parent ->
    shown db site child.

(** The class a tag has after a sequence of registrations: that of its last
    registration, the model class when it has none. *)
Fixpoint last_registered (registrations : list (string * block_class))
  (tag : string) : option block_class :=
  match registrations with
  | [] => None
  | (k, c) :: rest =>
      match last_registered rest tag with
      | Some c' => Some c'
      | None => if String.eqb k tag then Some c else None
      end
  end.

Definition register_all (types : registry)
  (registrations : list (string * block_class)) : registry :=
  fold_left (fun t kc => register_content_block_type t (fst kc) (snd kc))
    registrations types.

(** The stages that come after the two lookups. *)
Definition later_stage (s : stage) : bool :=
  match s with
  | ResolveSite _ | ResolvePage _ _ => false
  | GetContentBlocks _ | BuildNavigation _
  | GetTemplatePath _ _ | RenderTemplate _ => true
  end.

(** The site lookup or the page lookup of a request comes back empty. *)
Inductive lookup_failure (db : Db) (url_path : string) : Prop :=
| SiteMissing (site_prefix : string) (rest : list string) :
    path_parts url_path = site_prefix :: rest ->
    resolve_site db site_prefix = None ->
    lookup_failure db url_path
| PageMissing (site_prefix : string) (rest : list string) (site : Site.t) :
    path_parts url_path = site_prefix :: rest ->
    resolve_site db site_prefix = Some site ->
    resolve_page db site (page_path_of rest) = None ->
    lookup_failure db url_path.

(** No two active sites share a prefix (the column is declared unique). *)
Definition unique_active_prefixes (db : Db) : Prop :=
  forall s1 s2,
    In s1 (sites db) -> In s2 (sites db) ->
    Site.is_active s1 = true -> Site.is_active s2 = true ->
    Site.path_prefix s1 = Site.path_prefix s2 -> s1 = s2.

(** No two active pages of a site share a path. *)
Definition unique_active_paths (db : Db) : Prop :=
  forall p1 p2,
    In p1 (pages db) -> In p2 (pages db) ->
    Page.is_active p1 = true -> Page.is_active p2 = true ->
    Page.site_id p1 = Page.site_id p2 ->
    Page.path p1 = Page.path p2 -> p1 = p2.

(** How far a navigation item is below a top-level item, following
    [parent_id] upwards.  An item whose chain of parents never reaches a
    top-level item has no rank. *)
Inductive nav_rank (db : Db) : NavigationItem.t -> nat -> Prop :=
| rank_top (item : NavigationItem.t) :
    In item (navigation_items db) ->
    NavigationItem.parent_id item = None ->
    nav_rank db item 0
| rank_child (child parent : NavigationItem.t) (k : nat) :
    In child (navigation_items db) ->
    NavigationItem.parent_id child = Some (NavigationItem.id parent) ->
    nav_rank db parent k ->
    nav_rank db child (S k).

(** [ancestor db c a]: [a] is reached from [c] by one or more steps along
    [parent_id].  An item is on a cycle when it is its own ancestor. *)
Inductive ancestor (db : Db) : NavigationItem.t -> NavigationItem.t -> Prop :=
| ancestor_parent (child parent : NavigationItem.t) :
    In child (navigation_items db) -> In parent (navigation_items db) ->
    NavigationItem.parent_id child = Some (NavigationItem.id parent) ->
    ancestor db child parent
| ancestor_step (child parent a : NavigationItem.t) :
    In child (navigation_items db) -> In parent (navigation_items db) ->
    NavigationItem.parent_id child = Some (NavigationItem.id parent) ->
    ancestor db parent a ->
    ancestor db child a.

(** The identifiers in a menu, at every level. *)
Fixpoint entry_ids (e : nav_entry) : list Z :=
  match e with
  | NavEntry id _ _ children => id :: flat_map entry_ids children
  end.

Definition menu_ids (menu : list nav_entry) : list Z :=
  flat_map entry_ids menu.

(** The primary key of [navigation_items]. *)
Definition unique_nav_ids (db : Db) : Prop :=
  NoDup (map NavigationItem.id (navigation_items db)).

(** Blocks with equal [order_index] come in the order of their creation,
    that is of their autoincremented [id]. *)
Definition ties_in_creation_order (blocks : list ContentBlock.t) : Prop :=
  StronglySorted
    (fun x y => ContentBlock.order_index x = ContentBlock.order_index y ->
                ContentBlock.id x < ContentBlock.id y)
    blocks.

(** List items in the words of the specification: split the content on
    newline, trim each line, drop the empty ones. *)
Definition trimmed_nonblank_lines (content : string) : list string :=
  filter PyStr.truthy (map PyStr.strip (PyStr.split PyStr.newline content)).

(** The tags with an arm of their own in [ContentBlock.render]. *)
Definition rendered_types : list string :=
  ["text"; "html"; "image"; "list"; "quote"; "code"].

(** ** Sample data: the site "acme" *)

Definition acme : Site.t :=
  Site.mk 1 "acme" "Acme" "corporate" true.

Definition acme_home : Page.t :=
  Page.mk 1 1 "home" "Welcome" "standard" true.

Definition acme_about : Page.t :=
  Page.mk 2 1 "about" "About" "standard" true.

Definition hello_quote : ContentBlock.t :=
  ContentBlock.mk 1 2 "quote" None "Hello" 1 true.

Definition nav_home : NavigationItem.t :=
  NavigationItem.mk 1 1 "Home" "/acme/home" None 1 false true.

Definition nav_about : NavigationItem.t :=
  NavigationItem.mk 2 1 "About" "/acme/about" None 2 false true.

Definition nav_team : NavigationItem.t :=
  NavigationItem.mk 3 1 "Team" "/acme/team" (Some 2) 1 false true.

Definition acme_db : Db :=
  {| sites := [acme];
     pages := [acme_home; acme_about];
     content_blocks := [hello_quote];
     navigation_items := [nav_home; nav_about; nav_team] |}.

Definition first_quote : ContentBlock.t :=
  ContentBlock.mk 1 2 "quote" None "First" 1 true.

Definition second_quote : ContentBlock.t :=
  ContentBlock.mk 2 2 "quote" None "Second" 1 true.

(** Two blocks of the page "about" with the same [order_index]. *)
Definition two_quotes_db : Db :=
  {| sites := [acme];
     pages := [acme_home; acme_about];
     content_blocks := [first_quote; second_quote];
     navigation_items := [nav_home] |}.

(** Two items that are each other's parent. *)
Definition loop_a : NavigationItem.t :=
  NavigationItem.mk 10 1 "A" "/acme/a" (Some 11) 1 false true.

Definition loop_b : NavigationItem.t :=
  NavigationItem.mk 11 1 "B" "/acme/b" (Some 10) 1 false true.

Definition loop_db : Db :=
  {| sites := [acme];
     pages := [acme_home; acme_about];
     content_blocks := [hello_quote];
     navigation_items := [nav_home; loop_a; nav_about; loop_b; nav_team] |}.

Definition video_block : ContentBlock.t :=
  ContentBlock.mk 3 2 "video" None "clip.mp4" 2 true.

Definition nl : string := String PyStr.newline EmptyString.

(** A list block with a blank line: [A\nB\n\nC]. *)
Definition abc_block : ContentBlock.t :=
  ContentBlock.mk 4 2 "list" None ("A" ++ nl ++ "B" ++ nl ++ nl ++ "C") 3 true.

(** A list block whose lines have blanks around them. *)
Definition padded_block : ContentBlock.t :=
  ContentBlock.mk 5 2 "list" None (" A " ++ nl ++ "   " ++ nl ++ "B  ") 4 true.

(** * Properties *)

(** ** Strings *)

Module PyStrFacts.
Import PyStr.

Lemma append_empty_r (s : string) : s ++ "" = s.
Proof. induction s as [|c s IH]; simpl; [reflexivity | now rewrite IH]. Qed.

Lemma split_not_nil (sep : ascii) (s : string) : split sep s <> [].
Proof.
  induction s as [|c s IH]; simpl; [discriminate|].
  destruct (Ascii.eqb sep c); [discriminate|].
  destruct (split sep s); discriminate.
Qed.

(** No piece of a split contains the separator. *)
Lemma split_pieces_free (sep : ascii) (s : string) :
  Forall (fun piece => contains sep piece = false) (split sep s).
Proof.
  induction s as [|c s IH]; simpl.
  - constructor; [reflexivity | constructor].
  - destruct (Ascii.eqb sep c) eqn:E.
    + constructor; [reflexivity | exact IH].
    + destruct (split sep s) as [|h t].
      * constructor; [simpl; now rewrite E | constructor].
      * inversion IH as [|? ? Hh Ht]; subst.
        constructor; [simpl; now rewrite E, Hh | exact Ht].
Qed.

Lemma split_free (sep : ascii) (t : string) :
  contains sep t = false -> split sep t = [t].
Proof.
  induction t as [|c t IH]; simpl; [reflexivity|].
  intros H. apply orb_false_iff in H as [E H].
  rewrite E, (IH H). reflexivity.
Qed.

Lemma split_app (sep : ascii) (t r : string) :
  contains sep t = false ->
  split sep (t ++ String sep r) = t :: split sep r.
Proof.
  induction t as [|c t IH]; simpl.
  - intros _. now rewrite Ascii.eqb_refl.
  - intros H. apply orb_false_iff in H as [E H].
    rewrite E, (IH H). reflexivity.
Qed.

Lemma rstrip_cons_keep (p : ascii -> bool) (c : ascii) (s : string) :
  rstrip p s <> "" -> rstrip p (String c s) = String c (rstrip p s).
Proof. simpl. destruct (rstrip p s); [congruence | reflexivity]. Qed.

Lemma rstrip_app_keep (p : ascii -> bool) (x y : string) :
  rstrip p y <> "" -> rstrip p (x ++ y) = x ++ rstrip p y.
Proof.
  intros Hy. induction x as [|c x IH]; [reflexivity|].
  change (String c x ++ y) with (String c (x ++ y)).
  rewrite rstrip_cons_keep; rewrite IH; [reflexivity|].
  destruct x; simpl; [exact Hy | discriminate].
Qed.

Lemma rstrip_app_drop (p : ascii -> bool) (x y : string) :
  rstrip p y = "" -> rstrip p (x ++ y) = rstrip p x.
Proof.
  intros Hy. induction x as [|c x IH]; simpl; [exact Hy | now rewrite IH].
Qed.

Lemma rstrip_free (c : ascii) (a : string) :
  contains c a = false -> rstrip (is_char c) a = a.
Proof.
  induction a as [|d a IH]; simpl; [reflexivity|].
  intros H. apply orb_false_iff in H as [E H]. rewrite (IH H).
  destruct a; [unfold is_char; now rewrite E | reflexivity].
Qed.

Lemma lstrip_free (c : ascii) (t : string) :
  contains c t = false -> lstrip (is_char c) t = t.
Proof.
  destruct t as [|d t]; simpl; [reflexivity|].
  intros H. apply orb_false_iff in H as [E _].
  unfold is_char. now rewrite E.
Qed.

(** What is left of [sep ++ r] when the separators at its end go: nothing,
    or something that still starts with the separator. *)
Lemma rstrip_sep_head (c : ascii) (r : string) :
  rstrip (is_char c) (String c r) = ""
  \/ exists r', rstrip (is_char c) (String c r) = String c r'.
Proof.
  simpl. destruct (rstrip (is_char c) r).
  - unfold is_char. rewrite Ascii.eqb_refl. now left.
  - right. eauto.
Qed.

(** The pieces of [t/a], stripped of slashes, with [t] and [a] proper
    segments. *)
Lemma parts_two (t a : string) :
  t <> "" -> contains slash t = false ->
  a <> "" -> contains slash a = false ->
  split slash (strip_chars (is_char slash) (t ++ String slash a)) = [t; a].
Proof.
  intros Ht Hft Ha Hfa. unfold strip_chars.
  assert (Hl : lstrip (is_char slash) (t ++ String slash a)
               = t ++ String slash a).
  { destruct t as [|d t]; [congruence|]. simpl in *.
    apply orb_false_iff in Hft as [E _]. unfold is_char. now rewrite E. }
  rewrite Hl.
  assert (Hr : rstrip (is_char slash) (String slash a) = String slash a).
  { rewrite rstrip_cons_keep; rewrite (rstrip_free _ _ Hfa);
      [reflexivity | exact Ha]. }
  rewrite rstrip_app_keep; rewrite Hr; [|discriminate].
  rewrite (split_app _ _ _ Hft), (split_free _ _ Hfa). reflexivity.
Qed.

(** The pieces of [t/a/rest], stripped of slashes: [t], [a] and more. *)
Lemma parts_long (t a rest : string) :
  t <> "" -> contains slash t = false ->
  a <> "" -> contains slash a = false ->
  exists more,
    split slash
      (strip_chars (is_char slash)
         (t ++ String slash (a ++ String slash rest))) = t :: a :: more.
Proof.
  intros Ht Hft Ha Hfa. unfold strip_chars.
  assert (Hl : lstrip (is_char slash)
                 (t ++ String slash (a ++ String slash rest))
               = t ++ String slash (a ++ String slash rest)).
  { destruct t as [|d t]; [congruence|]. simpl in *.
    apply orb_false_iff in Hft as [E _]. unfold is_char. now rewrite E. }
  rewrite Hl.
  assert (Hmid : exists r, rstrip (is_char slash) (a ++ String slash rest)
                           = a ++ r
                           /\ (r = "" \/ exists r', r = String slash r')).
  { destruct (rstrip_sep_head slash rest) as [E|[r' E]].
    - exists "". split; [|now left].
      rewrite rstrip_app_drop by exact E.
      now rewrite (rstrip_free _ _ Hfa), append_empty_r.
    - exists (String slash r'). split; [|right; eauto].
      rewrite rstrip_app_keep; rewrite E; [reflexivity | discriminate]. }
  destruct Hmid as (r & Er & Hr).
  assert (Hne : a ++ r <> "") by (destruct a; [congruence | discriminate]).
  rewrite rstrip_app_keep; rewrite rstrip_cons_keep; rewrite Er; try exact Hne;
    try discriminate.
  rewrite (split_app _ _ _ Hft).
  destruct Hr as [->|[r' ->]].
  - rewrite append_empty_r, (split_free _ _ Hfa). now exists [].
  - rewrite (split_app _ _ _ Hfa). eauto.
Qed.

(** One segment and nothing else, whatever slashes surround it. *)
Lemma parts_one (t : string) :
  contains slash t = false ->
  split slash (strip_chars (is_char slash) t) = [t].
Proof.
  intros H. unfold strip_chars.
  now rewrite (lstrip_free _ _ H), (rstrip_free _ _ H), (split_free _ _ H).
Qed.

End PyStrFacts.

Example split_examples :
  PyStr.split PyStr.slash "acme/about" = ["acme"; "about"]
  /\ PyStr.split PyStr.slash "" = [""]
  /\ PyStr.split PyStr.slash "a//b/" = ["a"; ""; "b"; ""]
  /\ PyStr.strip_chars (PyStr.is_char PyStr.slash) "//a/b//" = "a/b"
  /\ PyStr.strip "  x y	 " = "x y"
  /\ PyStr.lower "AcMe-1" = "acme-1".
Proof. repeat split; reflexivity. Qed.

(** ** The two lookups *)

Lemma hd_filter_some {A : Type} (f : A -> bool) (l : list A) (x : A) :
  hd_error (filter f l) = Some x -> In x l /\ f x = true.
Proof.
  intros H. apply filter_In.
  destruct (filter f l) as [|y l']; [discriminate|].
  injection H as ->. now left.
Qed.

Lemma hd_filter_none {A : Type} (f : A -> bool) (l : list A) :
  hd_error (filter f l) = None <-> (forall x, In x l -> f x = false).
Proof.
  split.
  - intros H x Hx. destruct (f x) eqn:E; [|reflexivity].
    assert (Hin : In x (filter f l)) by (apply filter_In; auto).
    destruct (filter f l); [contradiction | discriminate].
  - intros H. destruct (filter f l) as [|y l'] eqn:E; [reflexivity|].
    assert (Hin : In y (filter f l)) by (rewrite E; now left).
    apply filter_In in Hin as [Hy Hf]. rewrite (H y Hy) in Hf. discriminate.
Qed.

Lemma resolve_site_some (db : Db) (seg : string) (s : Site.t) :
  resolve_site db seg = Some s ->
  In s (sites db) /\ Site.is_active s = true /\ Site.path_prefix s = seg.
Proof.
  intros H. apply hd_filter_some in H as [Hin Hf].
  apply andb_true_iff in Hf as [Hp Ha].
  apply String.eqb_eq in Hp. apply Bool.eqb_prop in Ha. auto.
Qed.

Lemma resolve_site_none (db : Db) (seg : string) :
  resolve_site db seg = None <->
  (forall s, In s (sites db) -> Site.is_active s = true ->
             Site.path_prefix s <> seg).
Proof.
  unfold resolve_site. rewrite hd_filter_none. split.
  - intros H s Hin Ha Hp. specialize (H s Hin).
    rewrite Ha, Hp, String.eqb_refl in H. discriminate.
  - intros H s Hin. destruct (Site.is_active s) eqn:Ha.
    + specialize (H s Hin Ha). apply String.eqb_neq in H. now rewrite H.
    + apply andb_false_r.
Qed.

Lemma resolve_page_some (db : Db) (site : Site.t) (path : string)
  (p : Page.t) :
  resolve_page db site path = Some p ->
  In p (pages db) /\ Page.site_id p = Site.id site
  /\ Page.path p = path /\ Page.is_active p = true.
Proof.
  intros H. apply hd_filter_some in H as [Hin Hf].
  apply andb_true_iff in Hf as [Hf Ha].
  apply andb_true_iff in Hf as [Hs Hp].
  apply String.eqb_eq in Hp. apply Bool.eqb_prop in Ha.
  apply Z.eqb_eq in Hs. auto.
Qed.

Lemma resolve_page_none (db : Db) (site : Site.t) (path : string) :
  resolve_page db site path = None <->
  (forall p, In p (pages db) -> Page.is_active p = true ->
             Page.site_id p = Site.id site -> Page.path p <> path).
Proof.
  unfold resolve_page. rewrite hd_filter_none. split.
  - intros H p Hin Ha Hs Hp. specialize (H p Hin).
    rewrite Ha, Hp, Hs, String.eqb_refl, Z.eqb_refl in H. discriminate.
  - intros H p Hin. destruct (Page.is_active p) eqn:Ha.
    + destruct (Page.site_id p =? Site.id site) eqn:Hs; [|reflexivity].
      apply Z.eqb_eq in Hs. specialize (H p Hin Ha Hs).
      apply String.eqb_neq in H. now rewrite H.
    + apply andb_false_r.
Qed.

(** ** The route, case by case *)

Section RouteCases.

Context {engine : StoreEngine}.
Variables (depth : nat) (db : Db) (url_path : string).

Lemma body_site_missing (seg : string) (rest : list string) :
  path_parts url_path = seg :: rest ->
  resolve_site db seg = None ->
  dynamic_route_body depth db url_path
  = ([ResolveSite seg], inl (HTTPException 404)).
Proof.
  intros Hp Hs. unfold dynamic_route_body. rewrite Hp. simpl.
  rewrite Hs. reflexivity.
Qed.

Lemma body_page_missing (seg : string) (rest : list string) (site : Site.t) :
  path_parts url_path = seg :: rest ->
  resolve_site db seg = Some site ->
  resolve_page db site (page_path_of rest) = None ->
  dynamic_route_body depth db url_path
  = ([ResolveSite seg; ResolvePage (Site.id site) (page_path_of rest)],
     inl (HTTPException 404)).
Proof.
  intros Hp Hs Hg. unfold dynamic_route_body. rewrite Hp. simpl.
  rewrite Hs. simpl. rewrite Hg. reflexivity.
Qed.

Lemma body_page_found (seg : string) (rest : list string) (site : Site.t)
  (page : Page.t) :
  path_parts url_path = seg :: rest ->
  resolve_site db seg = Some site ->
  resolve_page db site (page_path_of rest) = Some page ->
  exists more outcome,
    dynamic_route_body depth db url_path
    = (ResolveSite seg :: ResolvePage (Site.id site) (page_path_of rest)
         :: GetContentBlocks (Page.id page) :: BuildNavigation (Site.id site)
         :: more, outcome)
    /\ forall r, outcome = inr r ->
                 ctx_site r = site /\ ctx_page r = page
                 /\ ctx_content_blocks r = get_content_blocks db page
                 /\ template_path r = get_template_path site "page.html".
Proof.
  intros Hp Hs Hg. unfold dynamic_route_body. rewrite Hp. simpl.
  rewrite Hs. simpl. rewrite Hg. simpl.
  destruct (build_navigation depth db site) as [nav|]; simpl.
  - eexists _, _. split; [reflexivity|].
    intros r Hr. injection Hr as <-. simpl. auto.
  - eexists _, _. split; [reflexivity|]. intros r Hr. discriminate.
Qed.

(** The handlers keep the log and every rendered page, and turn every
    exception into [abort(500)]. *)
Lemma route_of_body :
  fst (dynamic_route depth db url_path)
  = fst (dynamic_route_body depth db url_path)
  /\ (forall r, snd (dynamic_route depth db url_path) = inr r <->
                snd (dynamic_route_body depth db url_path) = inr r)
  /\ (forall e, snd (dynamic_route_body depth db url_path) = inl e ->
                snd (dynamic_route depth db url_path)
                = inl (HTTPException 500)).
Proof.
  unfold dynamic_route.
  destruct (dynamic_route_body depth db url_path) as [log [e|r]]; simpl.
  - destruct (is_SQLAlchemyError e); simpl; repeat split;
      intros; try discriminate; reflexivity.
  - repeat split; intros; try discriminate; auto.
Qed.

End RouteCases.

Lemma path_parts_not_nil (url_path : string) : path_parts url_path <> [].
Proof. apply PyStrFacts.split_not_nil. Qed.

Lemma page_path_of_free (seg : string) (rest : list string) (url_path : string) :
  path_parts url_path = seg :: rest ->
  PyStr.contains PyStr.slash (page_path_of rest) = false.
Proof.
  intros Hp.
  pose proof (PyStrFacts.split_pieces_free PyStr.slash
                (PyStr.strip_chars (PyStr.is_char PyStr.slash) url_path)) as Hf.
  fold (path_parts url_path) in Hf. rewrite Hp in Hf.
  inversion Hf as [|? ? _ Hrest]; subst.
  destruct rest as [|p rest']; [reflexivity|].
  now inversion Hrest.
Qed.

Lemma route_reads_two_parts {engine : StoreEngine} (depth : nat) (db : Db)
  (u1 u2 seg page_path : string) (more1 more2 : list string) :
  path_parts u1 = seg :: page_path :: more1 ->
  path_parts u2 = seg :: page_path :: more2 ->
  dynamic_route depth db u1 = dynamic_route depth db u2.
Proof.
  intros H1 H2. unfold dynamic_route, dynamic_route_body.
  rewrite H1, H2. reflexivity.
Qed.

Lemma rendered_page_path_free {engine : StoreEngine} (depth : nat) (db : Db)
  (url_path : string) (log : list stage) (r : template_call) :
  dynamic_route depth db url_path = (log, inr r) ->
  PyStr.contains PyStr.slash (Page.path (ctx_page r)) = false.
Proof.
  intros H.
  assert (Hb : snd (dynamic_route_body depth db url_path) = inr r).
  { apply route_of_body. now rewrite H. }
  destruct (path_parts url_path) as [|seg rest] eqn:Hp;
    [now apply path_parts_not_nil in Hp|].
  destruct (resolve_site db seg) as [site|] eqn:Hs.
  - destruct (resolve_page db site (page_path_of rest)) as [page|] eqn:Hg.
    + destruct (body_page_found depth db url_path seg rest site page Hp Hs Hg)
        as (more & outcome & E & Hr).
      rewrite E in Hb. simpl in Hb. destruct (Hr r Hb) as (_ & -> & _).
      apply resolve_page_some in Hg as (_ & _ & -> & _).
      apply (page_path_of_free seg rest url_path Hp).
    + rewrite (body_page_missing depth db url_path seg rest site Hp Hs Hg) in Hb.
      discriminate.
  - rewrite (body_site_missing depth db url_path seg rest Hp Hs) in Hb.
    discriminate.
Qed.

(** ** C1: site resolution *)

(** C1, as amended.  With prefixes unique among the active sites, looking up
    the prefix of an active site yields exactly that site; a lookup that
    succeeds yields an active site whose prefix is equal to the segment
    looked up (the whole segment, character for character: no lowercasing,
    no partial match); a segment that is the prefix of no active site yields
    no site; and the route looks up the first piece of the path as it comes
    and, when a site answers to it, goes on to the page lookup with the
    identifier of that site, while it makes no other call when none does. *)
Theorem site_resolution_by_exact_prefix (db : Db)
  (Huniq : unique_active_prefixes db) :
  (forall s, In s (sites db) -> Site.is_active s = true ->
             resolve_site db (Site.path_prefix s) = Some s)
  /\ (forall seg s, resolve_site db seg = Some s ->
                    In s (sites db) /\ Site.is_active s = true
                    /\ Site.path_prefix s = seg)
  /\ (forall seg,
        (forall s, In s (sites db) -> Site.is_active s = true ->
                   Site.path_prefix s <> seg) ->
        resolve_site db seg = None)
  /\ (forall (engine : StoreEngine) depth url_path,
        exists seg rest,
          path_parts url_path = seg :: rest
          /\ hd_error (fst (dynamic_route depth db url_path))
             = Some (ResolveSite seg))
  /\ (forall (engine : StoreEngine) depth url_path s rest,
        In s (sites db) -> Site.is_active s = true ->
        path_parts url_path = Site.path_prefix s :: rest ->
        exists more,
          fst (dynamic_route depth db url_path)
          = ResolveSite (Site.path_prefix s)
              :: ResolvePage (Site.id s) (page_path_of rest) :: more)
  /\ (forall (engine : StoreEngine) depth url_path seg rest,
        path_parts url_path = seg :: rest ->
        resolve_site db seg = None ->
        fst (dynamic_route depth db url_path) = [ResolveSite seg]).
Proof.
  assert (Hfound : forall s, In s (sites db) -> Site.is_active s = true ->
                             resolve_site db (Site.path_prefix s) = Some s).
  { intros s Hin Ha.
    destruct (resolve_site db (Site.path_prefix s)) as [s'|] eqn:E.
    - destruct (resolve_site_some _ _ _ E) as (Hin' & Ha' & Hp').
      f_equal. now apply Huniq.
    - rewrite resolve_site_none in E. now destruct (E s Hin Ha). }
  split; [exact Hfound|].
  split; [apply resolve_site_some|].
  split; [intros seg; apply resolve_site_none|].
  split.
  { intros engine depth url_path.
    destruct (path_parts url_path) as [|seg rest] eqn:Hp;
      [now apply path_parts_not_nil in Hp|].
    exists seg, rest. split; [reflexivity|].
    destruct (route_of_body depth db url_path) as (-> & _).
    destruct (resolve_site db seg) as [site|] eqn:Hs.
    + destruct (resolve_page db site (page_path_of rest)) as [page|] eqn:Hg.
      * destruct (body_page_found depth db url_path seg rest site page Hp Hs Hg)
          as (more & outcome & -> & _). reflexivity.
      * now rewrite (body_page_missing depth db url_path seg rest site Hp Hs Hg).
    + now rewrite (body_site_missing depth db url_path seg rest Hp Hs). }
  split.
  - intros engine depth url_path s rest Hin Ha Hp.
    specialize (Hfound s Hin Ha).
    destruct (route_of_body depth db url_path) as (-> & _).
    destruct (resolve_page db s (page_path_of rest)) as [page|] eqn:Hg.
    + destruct (body_page_found depth db url_path _ rest s page Hp Hfound Hg)
        as (more & outcome & -> & _). simpl. eauto.
    + rewrite (body_page_missing depth db url_path _ rest s Hp Hfound Hg).
      simpl. eauto.
  - intros engine depth url_path seg rest Hp Hs.
    destruct (route_of_body depth db url_path) as (-> & _).
    now rewrite (body_site_missing depth db url_path seg rest Hp Hs).
Qed.

Lemma site_resolution_by_exact_prefix_witness :
  unique_active_prefixes acme_db
  /\ resolve_site acme_db "acme" = Some acme.
Proof.
  assert (H : unique_active_prefixes acme_db).
  { intros s1 s2 [<-|[]] [<-|[]] _ _ _. reflexivity. }
  split; [exact H|].
  exact (proj1 (site_resolution_by_exact_prefix acme_db H)
           acme (or_introl eq_refl) eq_refl).
Defined.

(** C1 as stated fails: the first segment of [ACME/about], lowercased, is the
    prefix of the active site "acme", and the lookup yields no site. *)
Lemma uppercase_prefix_is_not_resolved :
  In acme (sites acme_db) /\ Site.is_active acme = true
  /\ path_parts "ACME/about" = ["ACME"; "about"]
  /\ PyStr.lower "ACME" = Site.path_prefix acme
  /\ resolve_site acme_db "ACME" = None
  /\ fst (dynamic_route (engine := scan_order_engine) 1 acme_db "ACME/about")
     = [ResolveSite "ACME"].
Proof. repeat split; try reflexivity. now left. Qed.

(** ** C8: nothing runs after a failed lookup *)

(** C8.  When the site lookup or the page lookup of a request comes back
    empty, the route calls none of the later stages (content blocks,
    navigation, template path, rendering) and renders nothing. *)
Theorem no_stage_after_failed_lookup {engine : StoreEngine} (depth : nat)
  (db : Db) (url_path : string) (Hfail : lookup_failure db url_path) :
  Forall (fun s => later_stage s = false)
    (fst (dynamic_route depth db url_path))
  /\ (forall r, snd (dynamic_route depth db url_path) <> inr r)
  /\ exists e, snd (dynamic_route_body depth db url_path) = inl e.
Proof.
  destruct (route_of_body depth db url_path) as (-> & Hr & _).
  assert (H : Forall (fun s => later_stage s = false)
                (fst (dynamic_route_body depth db url_path))
              /\ exists e, snd (dynamic_route_body depth db url_path) = inl e).
  { destruct Hfail as [seg rest Hp Hs | seg rest site Hp Hs Hg].
    - rewrite (body_site_missing depth db url_path seg rest Hp Hs). simpl.
      split; [repeat constructor | eauto].
    - rewrite (body_page_missing depth db url_path seg rest site Hp Hs Hg).
      simpl. split; [repeat constructor | eauto]. }
  destruct H as (Hlog & e & He).
  repeat split; [exact Hlog | | eauto].
  intros r Hrr. apply Hr in Hrr. congruence.
Qed.

Lemma no_stage_after_failed_lookup_witness :
  lookup_failure acme_db "acme/pricing"
  /\ Forall (fun s => later_stage s = false)
       (fst (dynamic_route (engine := scan_order_engine) 4 acme_db
               "acme/pricing")).
Proof.
  assert (H : lookup_failure acme_db "acme/pricing").
  { apply (PageMissing acme_db "acme/pricing" "acme" ["pricing"] acme);
      reflexivity. }
  split; [exact H|].
  exact (proj1 (no_stage_after_failed_lookup (engine := scan_order_engine)
                  4 acme_db "acme/pricing" H)).
Defined.

(** What the client is answered after a failed lookup.  [abort(404)] is
    called inside the [try] block and raises an [HTTPException], which is an
    [Exception]: the second handler takes it and calls [abort(500)]. *)
Lemma failed_lookup_is_answered_500 {engine : StoreEngine} (depth : nat)
  (db : Db) (url_path : string) :
  lookup_failure db url_path ->
  snd (dynamic_route_body depth db url_path) = inl (HTTPException 404)
  /\ respond (dynamic_route depth db url_path) = ErrorPage 500.
Proof.
  intros Hfail.
  assert (H : snd (dynamic_route_body depth db url_path)
              = inl (HTTPException 404)).
  { destruct Hfail as [seg rest Hp Hs | seg rest site Hp Hs Hg].
    - now rewrite (body_site_missing depth db url_path seg rest Hp Hs).
    - now rewrite (body_page_missing depth db url_path seg rest site Hp Hs Hg). }
  split; [exact H|].
  destruct (route_of_body depth db url_path) as (_ & _ & He).
  unfold respond. now rewrite (He _ H).
Qed.

(** ** C6: the home page by default, and the page lookup *)



(** ** C10: segments after the second are ignored *)

Lemma path_parts_two (t a : string) :
  t <> "" -> PyStr.contains PyStr.slash t = false ->
  a <> "" -> PyStr.contains PyStr.slash a = false ->
  path_parts (t ++ "/" ++ a) = [t; a].
Proof. exact (PyStrFacts.parts_two t a). Qed.

Lemma path_parts_long (t a rest : string) :
  t <> "" -> PyStr.contains PyStr.slash t = false ->
  a <> "" -> PyStr.contains PyStr.slash a = false ->
  exists more, path_parts (t ++ "/" ++ a ++ "/" ++ rest) = t :: a :: more.
Proof. exact (PyStrFacts.parts_long t a rest). Qed.

(** C10.  For proper segments [t] and [a] (not empty, no slash) and any
    [rest], the route does on [t/a/rest] exactly what it does on [t/a]: the
    same calls, the same site and page, the same outcome.  A page that the
    route renders has a path without a slash, whatever the request, while
    the path validator accepts paths with slashes: a page stored under such
    a path is never rendered by the route. *)
Theorem extra_segments_are_ignored {engine : StoreEngine} (depth : nat)
  (db : Db) (t a rest : string)
  (Ht : t <> "") (Hft : PyStr.contains PyStr.slash t = false)
  (Ha : a <> "") (Hfa : PyStr.contains PyStr.slash a = false) :
  dynamic_route depth db (t ++ "/" ++ a ++ "/" ++ rest)
  = dynamic_route depth db (t ++ "/" ++ a)
  /\ (forall url_path log r,
        dynamic_route depth db url_path = (log, inr r) ->
        PyStr.contains PyStr.slash (Page.path (ctx_page r)) = false)
  /\ (forall url_path log r page,
        In page (pages db) ->
        PyStr.contains PyStr.slash (Page.path page) = true ->
        dynamic_route depth db url_path = (log, inr r) ->
        ctx_page r <> page)
  /\ Page.validate_path "docs/intro" = Accepted "docs/intro"
  /\ PyStr.contains PyStr.slash "docs/intro" = true.
Proof.
  split; [|split; [|split; [|split]]].
  - destruct (path_parts_long t a rest Ht Hft Ha Hfa) as [more Hl].
    exact (route_reads_two_parts depth db _ _ t a more [] Hl
             (path_parts_two t a Ht Hft Ha Hfa)).
  - apply rendered_page_path_free.
  - intros url_path log r page _ Hslash Hroute Heq.
    apply rendered_page_path_free in Hroute. rewrite Heq in Hroute.
    congruence.
  - reflexivity.
  - reflexivity.
Qed.

Lemma extra_segments_are_ignored_witness :
  dynamic_route (engine := scan_order_engine) 4 acme_db "acme/about/b/c"
  = dynamic_route (engine := scan_order_engine) 4 acme_db "acme/about".
Proof.
  refine (proj1 (extra_segments_are_ignored (engine := scan_order_engine)
                   4 acme_db "acme" "about" "b/c" _ eq_refl _ eq_refl));
    discriminate.
Defined.

(** Without a proper second segment the two requests part ways: [t//b]
    asks for the page with the empty path, [t/] for the home page. *)
Example empty_second_segment :
  path_parts "acme//b" = ["acme"; ""; "b"]
  /\ path_parts "acme/" = ["acme"]
  /\ fst (dynamic_route (engine := scan_order_engine) 4 acme_db "acme//b")
     = [ResolveSite "acme"; ResolvePage 1 ""].
Proof. repeat split. Qed.

(** ** C3: the content blocks of a page *)

Lemma order_by_In {engine : StoreEngine} {A : Type} (col : A -> Z)
  (rows : list A) (x : A) :
  In x (order_by col rows) <-> In x rows.
Proof.
  split; apply Permutation_in;
    [|apply Permutation_sym]; apply order_by_permutation.
Qed.



(** The same request under the engine that keeps scan order. *)
Example equal_order_index_scan_order :
  get_content_blocks (engine := scan_order_engine) two_quotes_db acme_about
  = [first_quote; second_quote].
Proof. reflexivity. Qed.

(** ** C2: the depth of the navigation recursion *)

Lemma NoDup_map_inj {A B : Type} (f : A -> B) (l : list A) (x y : A) :
  NoDup (map f l) -> In x l -> In y l -> f x = f y -> x = y.
Proof.
  induction l as [|a l IH]; simpl; [contradiction|].
  intros Hnd Hx Hy E. inversion Hnd as [|? ? Hnotin Hnd']; subst.
  destruct Hx as [->|Hx], Hy as [->|Hy]; auto.
  - destruct Hnotin. rewrite E. now apply in_map.
  - destruct Hnotin. rewrite <- E. now apply in_map.
Qed.

Lemma traverse_some_all {A B : Type} (f : nat -> A -> option B) (m : nat)
  (l : list A) :
  (forall x, In x l -> exists y, forall d, (m <= d)%nat -> f d x = Some y) ->
  exists ys, forall d, (m <= d)%nat -> traverse (f d) l = Some ys.
Proof.
  induction l as [|x l IH]; intros H.
  - exists []. reflexivity.
  - destruct (H x (or_introl eq_refl)) as [y Hy].
    destruct IH as [ys Hys]; [intros z Hz; apply H; now right|].
    exists (y :: ys). intros d Hd. simpl.
    now rewrite (Hy d Hd), (Hys d Hd).
Qed.

Lemma Forall2_in_r {A B : Type} (R : A -> B -> Prop) (l : list A)
  (ys : list B) :
  Forall2 R l ys -> forall y, In y ys -> exists x, In x l /\ R x y.
Proof.
  induction 1 as [|x y l ys Hxy _ IH]; intros z Hz; [contradiction|].
  destruct Hz as [<-|Hz].
  - exists x. split; [now left | exact Hxy].
  - destruct (IH z Hz) as (x' & Hx' & Hr). exists x'. split; [now right|auto].
Qed.

Section NavigationDepth.

Context {engine : StoreEngine}.
Variable db : Db.
Hypothesis Hids : unique_nav_ids db.

Lemma nav_rank_in (x : NavigationItem.t) (k : nat) :
  nav_rank db x k -> In x (navigation_items db).
Proof. now destruct 1. Qed.

(** With a primary key, an item has one parent at most, hence one rank. *)
Lemma nav_rank_fun (x : NavigationItem.t) (k1 : nat) :
  nav_rank db x k1 -> forall k2, nav_rank db x k2 -> k1 = k2.
Proof.
  induction 1 as [x Hin Hp | c p k Hin Hp Hr IH]; intros k2 H2;
    destruct H2 as [x' Hin' Hp' | c' p' k' Hin' Hp' Hr']; try congruence.
  f_equal. apply IH.
  assert (E : p' = p).
  { apply (NoDup_map_inj NavigationItem.id (navigation_items db));
      eauto using nav_rank_in. congruence. }
  now subst.
Qed.

(** The ancestors of an item of rank [k]: [k + 1] different items. *)
Lemma nav_rank_chain (x : NavigationItem.t) (k : nat) :
  nav_rank db x k ->
  exists l, List.length l = S k /\ NoDup l
            /\ incl l (navigation_items db)
            /\ forall y, In y l -> exists j, (j <= k)%nat /\ nav_rank db y j.
Proof.
  induction 1 as [x Hin Hp | c p k Hin Hp Hr IH].
  - exists [x]. repeat split.
    + constructor; [intros [] | constructor].
    + intros y [<-|[]]. exact Hin.
    + intros y [<-|[]]. exists 0%nat. split; [lia | now constructor].
  - destruct IH as (l & Hlen & Hnd & Hincl & Hranks).
    assert (Hc : nav_rank db c (S k)) by (econstructor; eauto).
    exists (c :: l). repeat split.
    + simpl. now rewrite Hlen.
    + constructor; [|exact Hnd]. intros Hcl.
      destruct (Hranks c Hcl) as (j & Hj & Hrj).
      pose proof (nav_rank_fun c (S k) Hc j Hrj). lia.
    + intros y [<-|Hy]; [exact Hin | now apply Hincl].
    + intros y [<-|Hy].
      * exists (S k). split; [lia | exact Hc].
      * destruct (Hranks y Hy) as (j & Hj & Hrj). exists j. split; [lia|auto].
Qed.

Lemma nav_rank_bound (x : NavigationItem.t) (k : nat) :
  nav_rank db x k -> (k < List.length (navigation_items db))%nat.
Proof.
  intros H. destruct (nav_rank_chain x k H) as (l & Hlen & Hnd & Hincl & _).
  pose proof (NoDup_incl_length Hnd Hincl). lia.
Qed.

Lemma active_children_spec (pid : Z) (c : NavigationItem.t) :
  In c (active_children db pid) ->
  In c (navigation_items db) /\ NavigationItem.parent_id c = Some pid.
Proof.
  unfold active_children. rewrite order_by_In, filter_In, andb_true_iff.
  intros (Hin & Hp & _). split; [exact Hin|].
  destruct (NavigationItem.parent_id c) as [q|]; simpl in Hp;
    [|discriminate].
  apply Z.eqb_eq in Hp. now subst.
Qed.

Lemma top_level_items_spec (site : Site.t) (item : NavigationItem.t) :
  In item (top_level_items db site) -> nav_rank db item 0.
Proof.
  unfold top_level_items. rewrite order_by_In, filter_In, !andb_true_iff.
  intros (Hin & (_ & Hp) & _). constructor; [exact Hin|].
  destruct (NavigationItem.parent_id item); [discriminate | reflexivity].
Qed.

(** Below an item of rank [k] the recursion needs [n - k] frames at most,
    [n] the number of items, and returns the same menu with any larger
    budget. *)
Lemma get_nav_children_returns (budget : nat) :
  forall (p : NavigationItem.t) (k : nat),
    nav_rank db p k ->
    (List.length (navigation_items db) <= budget + k)%nat ->
    exists menu, forall depth, (budget <= depth)%nat ->
      get_nav_children depth db (NavigationItem.id p) = Some menu.
Proof.
  induction budget as [|budget IH]; intros p k Hr Hn.
  - pose proof (nav_rank_bound p k Hr). lia.
  - destruct (traverse_some_all
                (fun d child =>
                   match get_nav_children d db (NavigationItem.id child) with
                   | None => None
                   | Some sub =>
                       Some (NavEntry (NavigationItem.id child)
                               (NavigationItem.label child)
                               (NavigationItem.url child) sub)
                   end)
                budget (active_children db (NavigationItem.id p)))
      as [menu Hmenu].
    + intros c Hc. apply active_children_spec in Hc as [Hin Hp].
      destruct (IH c (S k)) as [sub Hsub];
        [econstructor; eauto | lia |].
      eexists. intros d Hd. rewrite (Hsub d Hd). reflexivity.
    + exists menu. intros depth Hd.
      destruct depth as [|depth]; [lia|]. simpl. apply Hmenu. lia.
Qed.

Lemma build_navigation_returns (site : Site.t) :
  exists menu, forall depth,
    (List.length (navigation_items db) <= depth)%nat ->
    build_navigation depth db site = Some menu.
Proof.
  unfold build_navigation.
  apply (traverse_some_all
           (fun d item =>
              match get_nav_children d db (NavigationItem.id item) with
              | None => None
              | Some children =>
                  Some (NavEntry (NavigationItem.id item)
                          (NavigationItem.label item)
                          (NavigationItem.url item) children)
              end)).
  intros item Hitem. apply top_level_items_spec in Hitem.
  destruct (get_nav_children_returns (List.length (navigation_items db))
              item 0 Hitem) as [sub Hsub]; [lia|].
  eexists. intros d Hd. rewrite (Hsub d Hd). reflexivity.
Qed.

(** Each step up the parents takes one off the rank. *)
Lemma ancestor_rank (c a : NavigationItem.t) :
  ancestor db c a ->
  forall k, nav_rank db c k -> exists j, (j < k)%nat /\ nav_rank db a j.
Proof.
  induction 1 as [c p Hc Hp Hpar | c p a Hc Hp Hpar Hanc IH]; intros k Hk.
  - destruct Hk as [x Hin Hnone | c' p' k' Hin Hpar' Hr']; [congruence|].
    assert (E : p' = p).
    { apply (NoDup_map_inj NavigationItem.id (navigation_items db));
        eauto using nav_rank_in. congruence. }
    subst. exists k'. split; [lia | exact Hr'].
  - destruct Hk as [x Hin Hnone | c' p' k' Hin Hpar' Hr']; [congruence|].
    assert (E : p' = p).
    { apply (NoDup_map_inj NavigationItem.id (navigation_items db));
        eauto using nav_rank_in. congruence. }
    subst. destruct (IH k' Hr') as (j & Hj & Hrj).
    exists j. split; [lia | exact Hrj].
Qed.

Lemma cycle_has_no_rank (x : NavigationItem.t) (k : nat) :
  ancestor db x x -> ~ nav_rank db x k.
Proof.
  intros Hcyc Hk. destruct (ancestor_rank x x Hcyc k Hk) as (j & Hj & Hrj).
  pose proof (nav_rank_fun x k Hk j Hrj). lia.
Qed.

Lemma traverse_some {A B : Type} (f : A -> option B) (l : list A)
  (ys : list B) :
  traverse f l = Some ys -> Forall2 (fun x y => f x = Some y) l ys.
Proof.
  revert ys. induction l as [|x l IH]; simpl; intros ys H.
  - injection H as <-. constructor.
  - destruct (f x) as [y|] eqn:E; [|discriminate].
    destruct (traverse f l) as [ys'|]; [|discriminate].
    injection H as <-. constructor; auto.
Qed.

(** Every identifier in what [get_nav_children] returns for a ranked item
    is the identifier of a ranked item. *)
Lemma get_nav_children_ranked (depth : nat) :
  forall (p : NavigationItem.t) (k : nat) (menu : list nav_entry),
    nav_rank db p k ->
    get_nav_children depth db (NavigationItem.id p) = Some menu ->
    forall i, In i (menu_ids menu) ->
      exists item j, NavigationItem.id item = i /\ nav_rank db item j.
Proof.
  induction depth as [|depth IH]; intros p k menu Hr Hm i Hi;
    [discriminate|].
  simpl in Hm. apply traverse_some in Hm.
  unfold menu_ids in Hi. apply in_flat_map in Hi as (e & He & Hie).
  destruct (Forall2_in_r _ _ _ Hm e He) as (c & Hc & Hce).
  apply active_children_spec in Hc as [Hin Hpar].
  assert (Hrc : nav_rank db c (S k)) by (econstructor; eauto).
  destruct (get_nav_children depth db (NavigationItem.id c)) as [sub|] eqn:Es;
    [|discriminate].
  injection Hce as <-. simpl in Hie. destruct Hie as [<-|Hie].
  - eauto.
  - exact (IH c (S k) sub Hrc Es i Hie).
Qed.

Lemma build_navigation_ranked (depth : nat) (site : Site.t)
  (menu : list nav_entry) :
  build_navigation depth db site = Some menu ->
  forall i, In i (menu_ids menu) ->
    exists item j, NavigationItem.id item = i /\ nav_rank db item j.
Proof.
  unfold build_navigation. intros Hm i Hi. apply traverse_some in Hm.
  unfold menu_ids in Hi. apply in_flat_map in Hi as (e & He & Hie).
  destruct (Forall2_in_r _ _ _ Hm e He) as (c & Hc & Hce).
  apply top_level_items_spec in Hc.
  destruct (get_nav_children depth db (NavigationItem.id c)) as [sub|] eqn:Es;
    [|discriminate].
  injection Hce as <-. simpl in Hie. destruct Hie as [<-|Hie].
  - eauto.
  - exact (get_nav_children_ranked depth c 0 sub Hc Es i Hie).
Qed.

Lemma ancestor_in (c a : NavigationItem.t) :
  ancestor db c a -> In c (navigation_items db).
Proof. now destruct 1. Qed.

Lemma cycle_not_in_menu (depth : nat) (site : Site.t) (menu : list nav_entry)
  (x : NavigationItem.t) :
  build_navigation depth db site = Some menu ->
  ancestor db x x ->
  ~ In (NavigationItem.id x) (menu_ids menu).
Proof.
  intros Hm Hcyc Hi.
  destruct (build_navigation_ranked depth site menu Hm _ Hi)
    as (item & j & Hid & Hrj).
  assert (E : item = x).
  { apply (NoDup_map_inj NavigationItem.id (navigation_items db));
      eauto using nav_rank_in, ancestor_in. }
  subst. exact (cycle_has_no_rank x j Hcyc Hrj).
Qed.

End NavigationDepth.



(** The menu of the table with the cycle: the items of the cycle are not
    in it. *)
Example loop_db_menu :
  build_navigation (engine := scan_order_engine) 5 loop_db acme
  = Some [NavEntry 1 "Home" "/acme/home" [];
          NavEntry 2 "About" "/acme/about"
            [NavEntry 3 "Team" "/acme/team" []]].
Proof. reflexivity. Qed.


(** ** Rendering *)

Lemma mem_In (x : string) (l : list string) :
  PyStr.mem x l = true <-> In x l.
Proof.
  unfold PyStr.mem. rewrite existsb_exists. split.
  - intros (y & Hy & E). apply String.eqb_eq in E. now subst.
  - intros H. exists x. split; [exact H | apply String.eqb_refl].
Qed.

Lemma render_arm_fallback (tag : string) :
  ContentBlock.render_arm tag = ContentBlock.Fallback <->
  ~ In tag rendered_types.
Proof.
  unfold ContentBlock.render_arm, rendered_types.
  destruct (String.eqb tag "text") eqn:E1;
    [apply String.eqb_eq in E1; subst; simpl; split;
       [discriminate | intros H; exfalso; apply H; auto 10]|].
  destruct (String.eqb tag "html") eqn:E2;
    [apply String.eqb_eq in E2; subst; simpl; split;
       [discriminate | intros H; exfalso; apply H; auto 10]|].
  destruct (String.eqb tag "image") eqn:E3;
    [apply String.eqb_eq in E3; subst; simpl; split;
       [discriminate | intros H; exfalso; apply H; auto 10]|].
  destruct (String.eqb tag "list") eqn:E4;
    [apply String.eqb_eq in E4; subst; simpl; split;
       [discriminate | intros H; exfalso; apply H; auto 10]|].
  destruct (String.eqb tag "quote") eqn:E5;
    [apply String.eqb_eq in E5; subst; simpl; split;
       [discriminate | intros H; exfalso; apply H; auto 10]|].
  destruct (String.eqb tag "code") eqn:E6;
    [apply String.eqb_eq in E6; subst; simpl; split;
       [discriminate | intros H; exfalso; apply H; auto 10]|].
  apply String.eqb_neq in E1, E2, E3, E4, E5, E6.
  split; [|reflexivity]. intros _ H. simpl in H.
  repeat (destruct H as [H|H]; [congruence|]). exact H.
Qed.

Lemma fallback_is_unknown_to_helper (tag : string) :
  ContentBlock.render_arm tag = ContentBlock.Fallback ->
  helper_arm_of tag = HUnknown.
Proof.
  unfold ContentBlock.render_arm, helper_arm_of.
  destruct (String.eqb tag "text"); [discriminate|].
  destruct (String.eqb tag "html"); [discriminate|].
  destruct (String.eqb tag "image"); [discriminate|].
  destruct (String.eqb tag "list"); [discriminate|].
  reflexivity.
Qed.

(** ** C5: blocks of a type without a renderer *)

(** C5, as amended.  For a block whose type has no arm of its own in
    [ContentBlock.render], that is any tag other than text, html, image,
    list, quote and code, [render] returns the generic wrapper with the
    type name in the class attribute and the content as it is stored.  The
    helper [render_content_blocks] returns for such a block the wrapper
    labelled "unknown", with the content as it is stored.  Both are total:
    neither raises. *)
Theorem unknown_type_fallback (block : ContentBlock.t)
  (Hnone : ~ In (ContentBlock.block_type block) rendered_types) :
  ContentBlock.render block
  = "<div class='content-block " ++ ContentBlock.block_type block ++ "'>"
      ++ ContentBlock.content block ++ "</div>"
  /\ render_content_blocks [block]
     = "<div class='content-block unknown'>" ++ ContentBlock.content block
         ++ "</div>".
Proof.
  apply render_arm_fallback in Hnone. split.
  - unfold ContentBlock.render. now rewrite Hnone.
  - unfold render_content_blocks, render_block_helper. simpl.
    now rewrite (fallback_is_unknown_to_helper _ Hnone).
Qed.

Lemma unknown_type_fallback_witness :
  ContentBlock.render video_block
  = "<div class='content-block video'>clip.mp4</div>"
  /\ render_content_blocks [video_block]
     = "<div class='content-block unknown'>clip.mp4</div>".
Proof.
  refine (unknown_type_fallback video_block _).
  unfold rendered_types. simpl. intuition discriminate.
Defined.

(** C5 as stated fails for the helper: the wrapper it returns for a video
    block does not carry the type name. *)
Lemma helper_fallback_drops_type_name :
  ContentBlock.render_arm (ContentBlock.block_type video_block)
  = ContentBlock.Fallback
  /\ helper_arm_of (ContentBlock.block_type video_block) = HUnknown
  /\ render_content_blocks [video_block]
     = "<div class='content-block unknown'>clip.mp4</div>"
  /\ PyStr.infix (ContentBlock.block_type video_block)
       (render_content_blocks [video_block]) = false.
Proof. repeat split. Qed.

(** ** C7: list blocks *)

Module StripFacts.
Import PyStr.

Lemma rstrip_idem (p : ascii -> bool) (s : string) :
  rstrip p (rstrip p s) = rstrip p s.
Proof.
  induction s as [|c s IH]; [reflexivity|]. simpl.
  destruct (rstrip p s) as [|d r] eqn:E.
  - destruct (p c) eqn:Hc; simpl; [reflexivity | now rewrite Hc].
  - change (rstrip p (String c (String d r)))
      with (match rstrip p (String d r) with
            | EmptyString => if p c then EmptyString else String c EmptyString
            | String _ _ as r' => String c r'
            end).
    now rewrite IH.
Qed.

Lemma lstrip_head (p : ascii -> bool) (s : string) :
  lstrip p s = ""
  \/ exists c s', lstrip p s = String c s' /\ p c = false.
Proof.
  induction s as [|c s IH]; simpl; [now left|].
  destruct (p c) eqn:Hc; [exact IH | right; eauto].
Qed.

Lemma rstrip_keeps_head (p : ascii -> bool) (c : ascii) (s : string) :
  p c = false -> exists r, rstrip p (String c s) = String c r.
Proof.
  intros Hc. simpl. destruct (rstrip p s); [rewrite Hc|]; eauto.
Qed.

(** What [strip] returns has nothing left to strip. *)
Lemma strip_chars_idem (p : ascii -> bool) (s : string) :
  strip_chars p (strip_chars p s) = strip_chars p s.
Proof.
  unfold strip_chars.
  destruct (lstrip_head p s) as [E | (c & s' & E & Hc)]; rewrite E.
  - reflexivity.
  - destruct (rstrip_keeps_head p c s' Hc) as [r Er].
    rewrite Er. simpl lstrip. rewrite Hc. rewrite <- Er.
    apply rstrip_idem.
Qed.

Lemma strip_idem (s : string) : strip (strip s) = strip s.
Proof. apply strip_chars_idem. Qed.

End StripFacts.

(** The comprehension of [render] filters, then trims; the words of the
    specification trim, then filter: the same items. *)
Lemma list_items_as_specified (content : string) :
  ContentBlock.list_items content = trimmed_nonblank_lines content.
Proof.
  unfold ContentBlock.list_items, trimmed_nonblank_lines.
  induction (PyStr.split PyStr.newline content) as [|line lines IH];
    [reflexivity|].
  simpl. destruct (PyStr.truthy (PyStr.strip line)); simpl; now rewrite IH.
Qed.

Lemma helper_items_trimmed (content : string) :
  map PyStr.strip (helper_list_items content)
  = ContentBlock.list_items content.
Proof. reflexivity. Qed.




(** ** C9: the block types the validator accepts *)

Lemma dict_get_absent {V : Type} (d : dict V) (key : string) (default : V) :
  (forall k v, In (k, v) d -> k <> key) -> dict_get d key default = default.
Proof.
  induction d as [|[k v] d IH]; simpl; intros H; [reflexivity|].
  assert (E : String.eqb k key = false).
  { apply String.eqb_neq. apply (H k v). now left. }
  rewrite E. apply IH. intros k' v' Hin. apply (H k' v'). now right.
Qed.

Lemma dict_get_set {V : Type} (d : dict V) (key : string) (value default : V) :
  dict_get (dict_set d key value) key default = value.
Proof.
  induction d as [|[k v] d IH]; simpl.
  - now rewrite String.eqb_refl.
  - destruct (String.eqb k key) eqn:E; simpl; rewrite E; [reflexivity | exact IH].
Qed.

Lemma validate_block_type_accepts (tag : string) :
  ContentBlock.validate_block_type tag = Accepted tag <->
  In tag ContentBlock.allowed_types.
Proof.
  unfold ContentBlock.validate_block_type. rewrite <- mem_In.
  destruct (PyStr.mem tag ContentBlock.allowed_types); simpl;
    split; (reflexivity || discriminate).
Qed.

Lemma validate_block_type_rejects (tag : string) :
  ~ In tag ContentBlock.allowed_types ->
  exists message,
    ContentBlock.validate_block_type tag = ValueError message.
Proof.
  rewrite <- mem_In. unfold ContentBlock.validate_block_type.
  destruct (PyStr.mem tag ContentBlock.allowed_types); simpl;
    [congruence | eauto].
Qed.

(** C9, as amended.  [validate_block_type] accepts the eight tags text,
    html, image, list, quote, code, video and gallery, returns the tag it
    accepts unchanged, and raises [ValueError] for every other tag.
    Registering a type changes the registry (the class registered is the
    class looked up afterwards) and not the validator, which has the eight
    tags written out: a tag outside the eight is rejected after it was
    registered as before.  A validated block takes the fallback arm of
    [render] exactly when its tag is video or gallery, the two accepted
    tags without an arm of their own. *)
Theorem block_type_validation_is_closed :
  ContentBlock.allowed_types
  = ["text"; "html"; "image"; "list"; "quote"; "code"; "video"; "gallery"]
  /\ (forall tag, In tag ContentBlock.allowed_types <->
                  ContentBlock.validate_block_type tag = Accepted tag)
  /\ (forall tag v, ContentBlock.validate_block_type tag = Accepted v ->
                    v = tag /\ In tag ContentBlock.allowed_types)
  /\ (forall tag, ~ In tag ContentBlock.allowed_types ->
                  exists message,
                    ContentBlock.validate_block_type tag = ValueError message)
  /\ (forall types tag class,
        get_content_block_class
          (register_content_block_type types tag class) tag = class)
  /\ (forall types tag class,
        ~ In tag ContentBlock.allowed_types ->
        get_content_block_class
          (register_content_block_type types tag class) tag = class
        /\ exists message,
             ContentBlock.validate_block_type tag = ValueError message)
  /\ (forall tag, ContentBlock.validate_block_type tag = Accepted tag ->
                  (ContentBlock.render_arm tag = ContentBlock.Fallback <->
                   tag = "video" \/ tag = "gallery")).
Proof.
  split; [reflexivity|].
  split; [intros tag; symmetry; apply validate_block_type_accepts|].
  split.
  { intros tag v H. unfold ContentBlock.validate_block_type in H.
    destruct (PyStr.mem tag ContentBlock.allowed_types) eqn:E; simpl in H;
      [|discriminate].
    injection H as <-. split; [reflexivity | now apply mem_In]. }
  split; [apply validate_block_type_rejects|].
  split.
  { intros types tag class. apply dict_get_set. }
  split.
  { intros types tag class Hout. split;
      [apply dict_get_set | now apply validate_block_type_rejects]. }
  intros tag H. apply validate_block_type_accepts in H.
  rewrite render_arm_fallback. unfold rendered_types.
  simpl in H. split.
  - intros Hno.
    repeat (destruct H as [H|H];
            [first [now left | now right
                   | exfalso; apply Hno; subst; simpl; auto 10]|]).
    contradiction.
  - intros [->| ->]; simpl; intuition discriminate.
Qed.

(** C9 as stated fails: a block of type video passes the validator and is
    rendered by the fallback arm. *)
Lemma validated_video_takes_fallback :
  ContentBlock.validate_block_type (ContentBlock.block_type video_block)
  = Accepted "video"
  /\ ContentBlock.render_arm (ContentBlock.block_type video_block)
     = ContentBlock.Fallback
  /\ ContentBlock.render video_block
     = "<div class='content-block video'>clip.mp4</div>".
Proof. repeat split. Qed.

(** ** C4: the template path *)

Lemma list_ascii_of_append (a b : string) :
  list_ascii_of_string (a ++ b)
  = (list_ascii_of_string a ++ list_ascii_of_string b)%list.
Proof. induction a as [|c a IH]; simpl; [reflexivity | now rewrite IH]. Qed.

Lemma list_ascii_of_string_inj (a b : string) :
  list_ascii_of_string a = list_ascii_of_string b -> a = b.
Proof.
  intros H. rewrite <- (string_of_list_ascii_of_string a),
              <- (string_of_list_ascii_of_string b). now rewrite H.
Qed.

Lemma append_cancel_r (a b t : string) : a ++ t = b ++ t -> a = b.
Proof.
  intros H. apply list_ascii_of_string_inj.
  apply (f_equal list_ascii_of_string) in H.
  rewrite !list_ascii_of_append in H. now apply app_inv_tail in H.
Qed.



(** ** The sample site, end to end *)

Example acme_about_rendered :
  dynamic_route (engine := scan_order_engine) 3 acme_db "acme/about"
  = ([ResolveSite "acme"; ResolvePage 1 "about"; GetContentBlocks 2;
      BuildNavigation 1; GetTemplatePath "corporate" "page.html";
      RenderTemplate "themes/corporate/page.html"],
     inr {| template_path := "themes/corporate/page.html";
            ctx_site := acme;
            ctx_page := acme_about;
            ctx_content_blocks := [hello_quote];
            ctx_navigation :=
              [NavEntry 1 "Home" "/acme/home" [];
               NavEntry 2 "About" "/acme/about"
                 [NavEntry 3 "Team" "/acme/team" []]] |})
  /\ ContentBlock.render hello_quote
     = "<div class='content-block quote'><blockquote>Hello</blockquote></div>".
Proof. split; reflexivity. Qed.

Example unknown_site_and_page :
  respond (dynamic_route (engine := scan_order_engine) 3 acme_db
             "unknown-tenant/anything") = ErrorPage 500
  /\ snd (dynamic_route_body (engine := scan_order_engine) 3 acme_db
            "unknown-tenant/anything") = inl (HTTPException 404)
  /\ respond (dynamic_route (engine := scan_order_engine) 3 acme_db
                "acme/unknown-page") = ErrorPage 500.
Proof. repeat split. Qed.

(** The validators lowercase what they accept: the write side normalizes
    the case, the lookups compare as written. *)
Example validators_lowercase :
  Site.validate_path_prefix "ACME" = Accepted "acme"
  /\ Site.validate_path_prefix "my-site_2" = Accepted "my-site_2"
  /\ (exists message,
        Site.validate_path_prefix "invalid prefix!" = ValueError message)
  /\ (exists message, Site.validate_path_prefix "" = ValueError message)
  /\ Page.validate_path "Docs/Intro" = Accepted "docs/intro"
  /\ (exists message,
        Site.validate_template_theme "restaurant" = ValueError message).
Proof. repeat split; eexists; reflexivity. Qed.

(** * Further properties of the code *)

(** ** The dynamic route *)

Lemma body_pages_found {engine : StoreEngine} (depth : nat) (db : Db)
  (url_path seg : string) (rest : list string) (site : Site.t)
  (page : Page.t) :
  path_parts url_path = seg :: rest ->
  resolve_site db seg = Some site ->
  resolve_page db site (page_path_of rest) = Some page ->
  dynamic_route_body depth db url_path
  = match build_navigation depth db site with
    | Some navigation =>
        ([ResolveSite seg; ResolvePage (Site.id site) (page_path_of rest);
          GetContentBlocks (Page.id page); BuildNavigation (Site.id site);
          GetTemplatePath (Site.template_theme site) "page.html";
          RenderTemplate (get_template_path site "page.html")],
         inr {| template_path := get_template_path site "page.html";
                ctx_site := site;
                ctx_page := page;
                ctx_content_blocks := get_content_blocks db page;
                ctx_navigation := navigation |})
    | None =>
        ([ResolveSite seg; ResolvePage (Site.id site) (page_path_of rest);
          GetContentBlocks (Page.id page); BuildNavigation (Site.id site)],
         inl RecursionError)
    end.
Proof.
  intros Hp Hs Hg. unfold dynamic_route_body. rewrite Hp. simpl.
  rewrite Hs. simpl. rewrite Hg. simpl.
  destruct (build_navigation depth db site); reflexivity.
Qed.

(** The route answers with the rendered page or with the error page 500,
    and with nothing else: the 404 it aborts with after a failed lookup is
    raised inside the [try] block and taken by [except Exception]. *)
Theorem route_answers_page_or_500 {engine : StoreEngine} (depth : nat)
  (db : Db) (url_path : string) :
  match respond (dynamic_route depth db url_path) with
  | Rendered _ => True
  | ErrorPage status => status = 500
  end
  /\ (lookup_failure db url_path ->
      respond (dynamic_route depth db url_path) = ErrorPage 500).
Proof.
  split.
  - unfold respond, dynamic_route.
    destruct (dynamic_route_body depth db url_path) as [log [e|r]]; simpl.
    + destruct (is_SQLAlchemyError e); reflexivity.
    + exact I.
  - intros H. apply (failed_lookup_is_answered_500 depth db url_path H).
Qed.

(** What the route renders is what the path addresses: the site is the
    active site whose prefix is the first piece of the path, the page is an
    active page of that site whose path is the second piece (or "home"), the
    blocks are those of the page, the menu is that of the site, and the six
    stages have run in order. *)
Theorem rendered_page_is_the_addressed_one {engine : StoreEngine}
  (depth : nat) (db : Db) (url_path : string) (log : list stage)
  (r : template_call)
  (Hrendered : dynamic_route depth db url_path = (log, inr r)) :
  exists seg rest,
    path_parts url_path = seg :: rest
    /\ resolve_site db seg = Some (ctx_site r)
    /\ Site.path_prefix (ctx_site r) = seg
    /\ Site.is_active (ctx_site r) = true
    /\ resolve_page db (ctx_site r) (page_path_of rest) = Some (ctx_page r)
    /\ Page.site_id (ctx_page r) = Site.id (ctx_site r)
    /\ Page.path (ctx_page r) = page_path_of rest
    /\ Page.is_active (ctx_page r) = true
    /\ ctx_content_blocks r = get_content_blocks db (ctx_page r)
    /\ build_navigation depth db (ctx_site r) = Some (ctx_navigation r)
    /\ template_path r = get_template_path (ctx_site r) "page.html"
    /\ log = [ResolveSite seg;
              ResolvePage (Site.id (ctx_site r)) (page_path_of rest);
              GetContentBlocks (Page.id (ctx_page r));
              BuildNavigation (Site.id (ctx_site r));
              GetTemplatePath (Site.template_theme (ctx_site r)) "page.html";
              RenderTemplate (template_path r)].
Proof.
  destruct (path_parts url_path) as [|seg rest] eqn:Hp;
    [now apply path_parts_not_nil in Hp|].
  exists seg, rest. split; [reflexivity|].
  unfold dynamic_route in Hrendered.
  destruct (resolve_site db seg) as [site|] eqn:Hs.
  - destruct (resolve_page db site (page_path_of rest)) as [page|] eqn:Hg.
    + rewrite (body_pages_found depth db url_path seg rest site page Hp Hs Hg)
        in Hrendered.
      destruct (build_navigation depth db site) as [nav|] eqn:Hn;
        simpl in Hrendered; [|discriminate].
      injection Hrendered as <- <-. simpl.
      destruct (resolve_site_some _ _ _ Hs) as (_ & Ha & Hpre).
      destruct (resolve_page_some _ _ _ _ Hg) as (_ & Hsid & Hpath & Hact).
      repeat split; auto.
    + rewrite (body_page_missing depth db url_path seg rest site Hp Hs Hg)
        in Hrendered. simpl in Hrendered. discriminate.
  - rewrite (body_site_missing depth db url_path seg rest Hp Hs) in Hrendered.
    simpl in Hrendered. discriminate.
Qed.

Lemma rendered_page_is_the_addressed_one_witness :
  exists seg rest,
    path_parts "acme/about" = seg :: rest
    /\ resolve_site acme_db seg = Some acme
    /\ Site.path_prefix acme = seg.
Proof.
  destruct (rendered_page_is_the_addressed_one
              (engine := scan_order_engine) 3 acme_db "acme/about" _ _
              eq_refl) as (seg & rest & Hp & Hs & Hpre & _).
  exists seg, rest. repeat split; assumption.
Defined.

(** When the site and the page of a path are found, and the navigation
    table has a primary key, the route renders that page of that site with
    every depth budget from the number of navigation items on, and with the
    same menu. *)
Theorem found_page_is_rendered {engine : StoreEngine} (db : Db)
  (url_path seg : string) (rest : list string) (site : Site.t)
  (page : Page.t)
  (Hparts : path_parts url_path = seg :: rest)
  (Hsite : resolve_site db seg = Some site)
  (Hpage : resolve_page db site (page_path_of rest) = Some page)
  (Hids : unique_nav_ids db) :
  exists menu, forall depth,
    (List.length (navigation_items db) <= depth)%nat ->
    respond (dynamic_route depth db url_path)
    = Rendered {| template_path := get_template_path site "page.html";
                  ctx_site := site;
                  ctx_page := page;
                  ctx_content_blocks := get_content_blocks db page;
                  ctx_navigation := menu |}.
Proof.
  destruct (build_navigation_returns db Hids site) as [menu Hmenu].
  exists menu. intros depth Hd. unfold respond, dynamic_route.
  rewrite (body_pages_found depth db url_path seg rest site page
             Hparts Hsite Hpage), (Hmenu depth Hd).
  reflexivity.
Qed.

Lemma found_page_is_rendered_witness :
  exists menu, forall depth,
    (3 <= depth)%nat ->
    respond (dynamic_route (engine := scan_order_engine) depth acme_db
               "acme/about")
    = Rendered {| template_path := "themes/corporate/page.html";
                  ctx_site := acme;
                  ctx_page := acme_about;
                  ctx_content_blocks := [hello_quote];
                  ctx_navigation := menu |}.
Proof.
  refine (found_page_is_rendered (engine := scan_order_engine) acme_db
            "acme/about" "acme" ["about"] acme acme_about
            eq_refl eq_refl eq_refl _).
  unfold unique_nav_ids. simpl. repeat constructor; simpl; intuition discriminate.
Defined.

Lemma lstrip_app_stripped (p : ascii -> bool) (u : string) (c : ascii) :
  p c = true ->
  PyStr.lstrip p (u ++ String c "")
  = match PyStr.lstrip p u with
    | EmptyString => EmptyString
    | x => x ++ String c ""
    end.
Proof.
  intros Hc. induction u as [|d u IH]; simpl.
  - now rewrite Hc.
  - destruct (p d); [exact IH | reflexivity].
Qed.

Lemma path_parts_leading_slash (u : string) :
  path_parts ("/" ++ u) = path_parts u.
Proof. reflexivity. Qed.

Lemma path_parts_trailing_slash (u : string) :
  path_parts (u ++ "/") = path_parts u.
Proof.
  unfold path_parts, PyStr.strip_chars. f_equal.
  rewrite (lstrip_app_stripped _ u PyStr.slash) by reflexivity.
  destruct (PyStr.lstrip (PyStr.is_char PyStr.slash) u) as [|d x] eqn:E;
    [reflexivity|].
  now rewrite PyStrFacts.rstrip_app_drop.
Qed.

(** Slashes at either end of the path change nothing: the route does on
    [/u] and on [u/] what it does on [u]. *)
Theorem route_ignores_outer_slashes {engine : StoreEngine} (depth : nat)
  (db : Db) (u : string) :
  dynamic_route depth db ("/" ++ u) = dynamic_route depth db u
  /\ dynamic_route depth db (u ++ "/") = dynamic_route depth db u
  /\ path_parts ("/" ++ u ++ "/") = path_parts u.
Proof.
  assert (H : forall a b, path_parts a = path_parts b ->
                          dynamic_route depth db a = dynamic_route depth db b).
  { intros a b E. unfold dynamic_route, dynamic_route_body. now rewrite E. }
  split; [apply H, path_parts_leading_slash|].
  split; [apply H, path_parts_trailing_slash|].
  rewrite path_parts_leading_slash. apply path_parts_trailing_slash.
Qed.

(** ** The validators of the prefix and of the page path *)

Module CharFacts.
Import PyStr.

Ltac by_cases_on c :=
  destruct c as [[] [] [] [] [] [] [] []]; vm_compute;
  try reflexivity; try discriminate; intros; try discriminate; reflexivity.

Lemma lower_char_idem (c : ascii) : lower_char (lower_char c) = lower_char c.
Proof. by_cases_on c. Qed.

Lemma alnum_lower_char (c : ascii) :
  is_alnum_char (lower_char c) = is_alnum_char c.
Proof. by_cases_on c. Qed.

Lemma prefix_char_lower (c : ascii) :
  prefix_char (lower_char c) = prefix_char c.
Proof. by_cases_on c. Qed.

Lemma path_char_lower (c : ascii) : path_char (lower_char c) = path_char c.
Proof. by_cases_on c. Qed.

Lemma prefix_char_not_slash (c : ascii) :
  prefix_char c = true -> Ascii.eqb slash c = false.
Proof. by_cases_on c. Qed.

Lemma path_char_not_space (c : ascii) : path_char c = true -> isspace c = false.
Proof. by_cases_on c. Qed.

Lemma prefix_char_path_char (c : ascii) :
  prefix_char c = true -> path_char c = true.
Proof. by_cases_on c. Qed.

Lemma lower_idem (s : string) : lower (lower s) = lower s.
Proof.
  induction s as [|c s IH]; simpl; [reflexivity|].
  now rewrite lower_char_idem, IH.
Qed.

Lemma forallb_str_ext (p q : ascii -> bool) (s : string) :
  (forall c, p c = q c) -> forallb_str p s = forallb_str q s.
Proof.
  intros H. induction s as [|c s IH]; simpl; [reflexivity|].
  now rewrite H, IH.
Qed.

Lemma forallb_str_impl (p q : ascii -> bool) (s : string) :
  (forall c, p c = true -> q c = true) ->
  forallb_str p s = true -> forallb_str q s = true.
Proof.
  intros H. induction s as [|c s IH]; simpl; [reflexivity|].
  intros Hs. apply andb_true_iff in Hs as [Hc Hs].
  now rewrite (H c Hc), (IH Hs).
Qed.

Lemma forallb_str_lower (p : ascii -> bool) (s : string) :
  (forall c, p (lower_char c) = p c) ->
  forallb_str p (lower s) = forallb_str p s.
Proof.
  intros H. induction s as [|c s IH]; simpl; [reflexivity|].
  now rewrite H, IH.
Qed.

Lemma existsb_str_lower (p : ascii -> bool) (s : string) :
  (forall c, p (lower_char c) = p c) ->
  existsb_str p (lower s) = existsb_str p s.
Proof.
  intros H. induction s as [|c s IH]; simpl; [reflexivity|].
  now rewrite H, IH.
Qed.

Lemma forallb_str_remove (p : ascii -> bool) (c : ascii) (s : string) :
  forallb_str p (remove_char c s)
  = forallb_str (fun d => Ascii.eqb d c || p d) s.
Proof.
  induction s as [|d s IH]; simpl; [reflexivity|].
  destruct (Ascii.eqb d c); simpl; now rewrite IH.
Qed.

Lemma existsb_str_remove (p : ascii -> bool) (c : ascii) (s : string) :
  p c = false -> existsb_str p (remove_char c s) = existsb_str p s.
Proof.
  intros Hc. induction s as [|d s IH]; simpl; [reflexivity|].
  destruct (Ascii.eqb d c) eqn:E; simpl; rewrite IH; [|reflexivity].
  apply Ascii.eqb_eq in E. subst. now rewrite Hc.
Qed.

(** Not empty and all alphanumeric: all alphanumeric, and one at least. *)
Lemma isalnum_all_and_one (s : string) :
  isalnum s = forallb_str is_alnum_char s && existsb_str is_alnum_char s.
Proof.
  unfold isalnum. destruct s as [|c s]; simpl; [reflexivity|].
  destruct (is_alnum_char c); simpl; [now rewrite andb_true_r | reflexivity].
Qed.

Lemma existsb_str_truthy (p : ascii -> bool) (s : string) :
  existsb_str p s = true -> truthy s = true.
Proof. destruct s; [discriminate | reflexivity]. Qed.

Lemma forallb_contains (p : ascii -> bool) (c : ascii) (s : string) :
  (forall d, p d = true -> Ascii.eqb c d = false) ->
  forallb_str p s = true -> contains c s = false.
Proof.
  intros H. induction s as [|d s IH]; simpl; [reflexivity|].
  intros Hs. apply andb_true_iff in Hs as [Hd Hs].
  now rewrite (H d Hd), (IH Hs).
Qed.

End CharFacts.

Lemma validate_path_prefix_decides (p : string) :
  Site.validate_path_prefix p
  = if PyStr.forallb_str prefix_char p
       && PyStr.existsb_str PyStr.is_alnum_char p
    then Accepted (PyStr.lower p)
    else ValueError
           "Path prefix must contain only alphanumeric characters, hyphens, and underscores".
Proof.
  unfold Site.validate_path_prefix.
  rewrite CharFacts.isalnum_all_and_one, !CharFacts.forallb_str_remove,
    !CharFacts.existsb_str_remove by reflexivity.
  rewrite (CharFacts.forallb_str_ext
             (fun d => Ascii.eqb d "-"
                       || (Ascii.eqb d "_" || PyStr.is_alnum_char d))
             prefix_char)
    by (intros c; unfold prefix_char;
        destruct (Ascii.eqb c "-"), (Ascii.eqb c "_"),
          (PyStr.is_alnum_char c); reflexivity).
  destruct (PyStr.forallb_str prefix_char p); simpl;
    [|now rewrite orb_true_r].
  destruct (PyStr.existsb_str PyStr.is_alnum_char p) eqn:E; simpl;
    [|now rewrite orb_true_r].
  now rewrite (CharFacts.existsb_str_truthy _ _ E).
Qed.

Lemma validate_path_decides (p : string) :
  Page.validate_path p
  = if PyStr.forallb_str path_char p
       && PyStr.existsb_str PyStr.is_alnum_char p
    then Accepted (PyStr.lower p)
    else ValueError
           "Page path must contain only alphanumeric characters, hyphens, underscores, and slashes".
Proof.
  unfold Page.validate_path.
  rewrite CharFacts.isalnum_all_and_one, !CharFacts.forallb_str_remove,
    !CharFacts.existsb_str_remove by reflexivity.
  rewrite (CharFacts.forallb_str_ext
             (fun d => Ascii.eqb d "-"
                       || (Ascii.eqb d "_"
                           || (Ascii.eqb d "/" || PyStr.is_alnum_char d)))
             path_char)
    by (intros c; unfold path_char, prefix_char;
        destruct (Ascii.eqb c "-"), (Ascii.eqb c "_"), (Ascii.eqb c "/"),
          (PyStr.is_alnum_char c); reflexivity).
  destruct (PyStr.forallb_str path_char p); simpl;
    [|now rewrite orb_true_r].
  destruct (PyStr.existsb_str PyStr.is_alnum_char p) eqn:E; simpl;
    [|now rewrite orb_true_r].
  now rewrite (CharFacts.existsb_str_truthy _ _ E).
Qed.

Lemma validate_path_prefix_facts (p : string) :
  (PyStr.forallb_str prefix_char p
     && PyStr.existsb_str PyStr.is_alnum_char p = true <->
   Site.validate_path_prefix p = Accepted (PyStr.lower p))
  /\ (PyStr.forallb_str prefix_char p
        && PyStr.existsb_str PyStr.is_alnum_char p = false <->
      exists message, Site.validate_path_prefix p = ValueError message)
  /\ (forall q, Site.validate_path_prefix p = Accepted q ->
                q = PyStr.lower p
                /\ q <> ""
                /\ PyStr.lower q = q
                /\ PyStr.contains PyStr.slash q = false
                /\ PyStr.forallb_str (fun c => negb (PyStr.isspace c)) q = true
                /\ Site.validate_path_prefix q = Accepted q).
Proof.
  rewrite validate_path_prefix_decides.
  destruct (PyStr.forallb_str prefix_char p
              && PyStr.existsb_str PyStr.is_alnum_char p) eqn:E.
  - split; [split; reflexivity|].
    split; [split; [discriminate | intros [m Hm]; discriminate]|].
    intros q Hq. injection Hq as <-.
    apply andb_true_iff in E as [Hall Hone].
    assert (Hall' : PyStr.forallb_str prefix_char (PyStr.lower p) = true)
      by now rewrite (CharFacts.forallb_str_lower _ _ CharFacts.prefix_char_lower).
    assert (Hone' : PyStr.existsb_str PyStr.is_alnum_char (PyStr.lower p)
                    = true)
      by now rewrite (CharFacts.existsb_str_lower _ _ CharFacts.alnum_lower_char).
    repeat split.
    + intros Hempty. rewrite Hempty in Hone'. discriminate.
    + apply CharFacts.lower_idem.
    + apply (CharFacts.forallb_contains prefix_char);
        [apply CharFacts.prefix_char_not_slash | exact Hall'].
    + apply (CharFacts.forallb_str_impl prefix_char); [|exact Hall'].
      intros c Hc. apply CharFacts.prefix_char_path_char in Hc.
      now rewrite (CharFacts.path_char_not_space c Hc).
    + rewrite validate_path_prefix_decides, Hall', Hone',
        CharFacts.lower_idem. reflexivity.
  - split; [split; discriminate|].
    split; [split; eauto|]. intros q Hq. discriminate.
Qed.


Lemma validate_path_facts (p : string) :
  (PyStr.forallb_str path_char p
     && PyStr.existsb_str PyStr.is_alnum_char p = true <->
   Page.validate_path p = Accepted (PyStr.lower p))
  /\ (PyStr.forallb_str path_char p
        && PyStr.existsb_str PyStr.is_alnum_char p = false <->
      exists message, Page.validate_path p = ValueError message)
  /\ (forall q, Page.validate_path p = Accepted q ->
                q = PyStr.lower p
                /\ q <> ""
                /\ PyStr.lower q = q
                /\ PyStr.forallb_str (fun c => negb (PyStr.isspace c)) q = true
                /\ Page.validate_path q = Accepted q)
  /\ Page.validate_path "/a//b/" = Accepted "/a//b/"
  /\ (exists message, Page.validate_path "/" = ValueError message).
Proof.
  rewrite validate_path_decides.
  destruct (PyStr.forallb_str path_char p
              && PyStr.existsb_str PyStr.is_alnum_char p) eqn:E.
  - split; [split; reflexivity|].
    split; [split; [discriminate | intros [m Hm]; discriminate]|].
    split; [|split; [reflexivity | eexists; reflexivity]].
    intros q Hq. injection Hq as <-.
    apply andb_true_iff in E as [Hall Hone].
    assert (Hall' : PyStr.forallb_str path_char (PyStr.lower p) = true)
      by now rewrite (CharFacts.forallb_str_lower _ _ CharFacts.path_char_lower).
    assert (Hone' : PyStr.existsb_str PyStr.is_alnum_char (PyStr.lower p)
                    = true)
      by now rewrite (CharFacts.existsb_str_lower _ _ CharFacts.alnum_lower_char).
    repeat split.
    + intros Hempty. rewrite Hempty in Hone'. discriminate.
    + apply CharFacts.lower_idem.
    + apply (CharFacts.forallb_str_impl path_char); [|exact Hall'].
      intros c Hc. now rewrite (CharFacts.path_char_not_space c Hc).
    + rewrite validate_path_decides, Hall', Hone', CharFacts.lower_idem.
      reflexivity.
  - split; [split; discriminate|].
    split; [split; eauto|].
    split; [intros q Hq; discriminate|].
    split; [reflexivity | eexists; reflexivity].
Qed.


(** ** Navigation URLs *)

(** [validate_url] raises on the empty URL only.  What it returns starts
    with a slash or with "http" (a URL that does not gets a slash in front)
    and is returned unchanged when validated again.  For an item whose URL
    went through the validator, [get_full_url] is the stored URL: the arm
    that puts the prefix of the site in front is never taken. *)
Theorem validate_url_roots_the_url (url : string) :
  (url = "" <-> exists message,
                  NavigationItem.validate_url url = ValueError message)
  /\ (forall u, NavigationItem.validate_url url = Accepted u ->
        (PyStr.startswith "/" u || PyStr.startswith "http" u = true)
        /\ (u = url \/ u = "/" ++ url)
        /\ NavigationItem.validate_url u = Accepted u
        /\ forall site item,
             NavigationItem.url item = u ->
             NavigationItem.get_full_url site item = u).
Proof.
  unfold NavigationItem.validate_url. destruct url as [|c url].
  - split.
    + split; [intros _; eexists; reflexivity | reflexivity].
    + intros u H. discriminate.
  - split.
    + split; [discriminate|]. intros [m Hm]. simpl in Hm.
      destruct (negb _); discriminate.
    + cbn [PyStr.truthy negb].
      destruct (PyStr.startswith "/" (String c url)
                || PyStr.startswith "http" (String c url)) eqn:E;
        cbn [negb]; intros u Hu; injection Hu as <-.
      * split; [exact E|]. split; [now left|].
        split; [now rewrite E|].
        intros site item Hi. unfold NavigationItem.get_full_url. rewrite Hi.
        apply orb_true_iff in E as [E|E]; rewrite E;
          [|now rewrite orb_true_r].
        now destruct (NavigationItem.is_external item
                      || PyStr.startswith "http" (String c url)).
      * split; [reflexivity|]. split; [now right|].
        split; [reflexivity|].
        intros site item Hi. unfold NavigationItem.get_full_url. rewrite Hi.
        destruct (NavigationItem.is_external item || _); reflexivity.
Qed.

(** ** The full URL of a page, and the directory of sites *)

Lemma accepted_prefix_is_a_segment (p : string) :
  Site.validate_path_prefix p = Accepted p ->
  p <> "" /\ PyStr.contains PyStr.slash p = false.
Proof.
  intros H.
  destruct (validate_path_prefix_facts p) as (_ & _ & Hq).
  destruct (Hq p H) as (_ & Hne & _ & Hslash & _). auto.
Qed.

Lemma path_parts_full_url (prefix path : string) :
  prefix <> "" -> PyStr.contains PyStr.slash prefix = false ->
  path <> "" -> PyStr.contains PyStr.slash path = false ->
  path_parts ("/" ++ prefix ++ "/" ++ path) = [prefix; path].
Proof.
  intros. rewrite path_parts_leading_slash. now apply path_parts_two.
Qed.





(** ** The registry of block classes *)

Lemma dict_get_set_other {V : Type} (d : dict V) (key other : string)
  (value default : V) :
  key <> other ->
  dict_get (dict_set d key value) other default = dict_get d other default.
Proof.
  intros Hne. apply String.eqb_neq in Hne.
  induction d as [|[k v] d IH]; simpl.
  - now rewrite Hne.
  - destruct (String.eqb k key) eqn:E; simpl.
    + apply String.eqb_eq in E. subst k. now rewrite Hne.
    + now rewrite IH.
Qed.

Lemma dict_set_keys {V : Type} (d : dict V) (key : string) (value : V)
  (k : string) :
  In k (map fst (dict_set d key value)) <-> k = key \/ In k (map fst d).
Proof.
  induction d as [|[k0 v0] d IH]; simpl.
  - intuition.
  - destruct (String.eqb k0 key) eqn:E; simpl.
    + apply String.eqb_eq in E. subst. intuition.
    + rewrite IH. intuition.
Qed.

Lemma dict_set_NoDup {V : Type} (d : dict V) (key : string) (value : V) :
  NoDup (map fst d) -> NoDup (map fst (dict_set d key value)).
Proof.
  induction d as [|[k0 v0] d IH]; simpl; intros H.
  - constructor; [intros [] | constructor].
  - inversion H as [|? ? Hnotin Hnd]; subst.
    destruct (String.eqb k0 key) eqn:E; simpl.
    + constructor; assumption.
    + constructor; [|now apply IH].
      rewrite dict_set_keys. intros [->|Hin]; [|contradiction].
      now rewrite String.eqb_refl in E.
Qed.

(** After any sequence of registrations, starting from the registry the
    module sets up, the class of a tag is the class of its last
    registration, and the model class when the tag was never registered;
    the registry keeps one entry per tag and never loses a built-in tag. *)
Theorem last_registration_wins
  (registrations : list (string * block_class)) (tag : string) :
  get_content_block_class (register_all CONTENT_BLOCK_TYPES registrations) tag
  = match last_registered registrations tag with
    | Some class => class
    | None => ContentBlockClass
    end
  /\ NoDup (map fst (register_all CONTENT_BLOCK_TYPES registrations))
  /\ (forall builtin, In builtin ContentBlock.allowed_types ->
        In builtin
          (map fst (register_all CONTENT_BLOCK_TYPES registrations))).
Proof.
  assert (Hget : forall regs types,
            get_content_block_class (register_all types regs) tag
            = match last_registered regs tag with
              | Some class => class
              | None => get_content_block_class types tag
              end).
  { induction regs as [|[k c] regs IH]; intros types; [reflexivity|].
    change (register_all types ((k, c) :: regs))
      with (register_all (register_content_block_type types k c) regs).
    rewrite IH. simpl. destruct (last_registered regs tag); [reflexivity|].
    unfold get_content_block_class, register_content_block_type.
    destruct (String.eqb k tag) eqn:E.
    - apply String.eqb_eq in E. subst. apply dict_get_set.
    - apply String.eqb_neq in E. now apply dict_get_set_other. }
  assert (Hkeys : forall regs types,
            NoDup (map fst types) ->
            NoDup (map fst (register_all types regs))
            /\ forall k, In k (map fst types) ->
                         In k (map fst (register_all types regs))).
  { induction regs as [|[k c] regs IH]; intros types Hnd; [auto|].
    change (register_all types ((k, c) :: regs))
      with (register_all (register_content_block_type types k c) regs).
    destruct (IH (register_content_block_type types k c)) as [H1 H2].
    - now apply dict_set_NoDup.
    - split; [exact H1|]. intros k' Hk'. apply H2.
      unfold register_content_block_type. rewrite dict_set_keys. now right. }
  split.
  - rewrite Hget. destruct (last_registered registrations tag);
      [reflexivity|].
    unfold get_content_block_class, CONTENT_BLOCK_TYPES.
    generalize ContentBlock.allowed_types as l.
    induction l as [|t l IHl]; simpl; [reflexivity|].
    now destruct (String.eqb t tag).
  - destruct (Hkeys registrations CONTENT_BLOCK_TYPES) as [H1 H2].
    + unfold CONTENT_BLOCK_TYPES. rewrite map_map.
      change (NoDup ContentBlock.allowed_types).
      unfold ContentBlock.allowed_types.
      repeat constructor; simpl; intuition discriminate.
    + split; [exact H1|]. intros builtin Hb. apply H2.
      unfold CONTENT_BLOCK_TYPES. rewrite map_map. exact Hb.
Qed.

(** ** The shape of the navigation menu *)

Lemma Forall2_map_eq {A B C : Type} (R : A -> B -> Prop) (f : A -> C)
  (g : B -> C) (l : list A) (ys : list B) :
  Forall2 R l ys -> (forall x y, R x y -> g y = f x) -> map g ys = map f l.
Proof.
  intros H Hfg. induction H as [|x y l ys Hxy _ IH]; simpl; [reflexivity|].
  now rewrite (Hfg x y Hxy), IH.
Qed.

Lemma all_entries_self (e : nav_entry) : In e (all_entries e).
Proof. destruct e. now left. Qed.

Lemma menu_ids_entries (menu : list nav_entry) (i : Z) :
  In i (menu_ids menu) ->
  exists e, In e (menu_entries menu) /\ nav_entry_id e = i.
Proof.
  assert (Hentry : forall (n : nat) e, (List.length (all_entries e) <= n)%nat ->
            In i (entry_ids e) ->
            exists e', In e' (all_entries e) /\ nav_entry_id e' = i).
  { induction n as [|n IH]; intros [id label url children] Hlen Hi;
      simpl in Hlen; [lia|].
    simpl in Hi. destruct Hi as [<-|Hi].
    - exists (NavEntry id label url children). split; [now left | reflexivity].
    - apply in_flat_map in Hi as (c & Hc & Hic).
      destruct (IH c) as (e' & He' & Hid); [|exact Hic|].
      + assert (Hle : (List.length (all_entries c)
                       <= List.length (flat_map all_entries children))%nat).
        { clear -Hc. induction children as [|d children IHc];
            [contradiction|].
          simpl. rewrite length_app. destruct Hc as [->|Hc]; [lia|].
          specialize (IHc Hc). lia. }
        lia.
      + exists e'. split; [|exact Hid]. simpl. right.
        apply in_flat_map. eauto. }
  unfold menu_ids, menu_entries. intros Hi.
  apply in_flat_map in Hi as (e & He & Hie).
  destruct (Hentry _ e (Nat.le_refl _) Hie) as (e' & He' & Hid).
  exists e'. split; [|exact Hid]. apply in_flat_map. eauto.
Qed.

Lemma nav_entry_induction (P : nav_entry -> Prop) :
  (forall id label url children,
      (forall c, In c children -> P c) -> P (NavEntry id label url children)) ->
  forall e, P e.
Proof.
  intros H. fix IH 1. intros [id label url children]. apply H.
  induction children as [|d children IHc]; intros c Hc; [contradiction|].
  destruct Hc as [<-|Hc]; [apply IH | now apply IHc].
Qed.

(** A child of an entry below [y] is below [y]. *)
Lemma all_entries_child (y : nav_entry) :
  forall parent e, In parent (all_entries y) ->
                   In e (nav_entry_children parent) -> In e (all_entries y).
Proof.
  induction y as [id label url children IH] using nav_entry_induction.
  intros parent e Hp He. simpl in Hp. destruct Hp as [<-|Hp].
  - simpl in He. simpl. right. apply in_flat_map. exists e.
    split; [exact He | apply all_entries_self].
  - simpl. right. apply in_flat_map in Hp as (z & Hz & Hzp).
    apply in_flat_map. exists z. split; [exact Hz|]. now apply (IH z Hz parent).
Qed.

Lemma all_entries_id (y : nav_entry) :
  forall e, In e (all_entries y) -> In (nav_entry_id e) (entry_ids y).
Proof.
  induction y as [id label url children IH] using nav_entry_induction.
  intros e He. simpl in He. destruct He as [<-|He]; [now left|].
  simpl. right. apply in_flat_map in He as (z & Hz & Hze).
  apply in_flat_map. exists z. split; [exact Hz | now apply IH].
Qed.

Section MenuShape.

Context {engine : StoreEngine}.
Variables (db : Db) (site : Site.t).

Lemma active_children_iff (pid : Z) (c : NavigationItem.t) :
  In c (active_children db pid) <->
  In c (navigation_items db) /\ NavigationItem.parent_id c = Some pid
  /\ NavigationItem.is_active c = true.
Proof.
  unfold active_children. rewrite order_by_In, filter_In, andb_true_iff.
  split.
  - intros (Hin & Hp & Ha). apply Bool.eqb_prop in Ha.
    destruct (NavigationItem.parent_id c) as [q|]; simpl in Hp;
      [|discriminate].
    apply Z.eqb_eq in Hp. subst. auto.
  - intros (Hin & Hp & Ha). rewrite Hp, Ha. simpl. rewrite Z.eqb_refl. auto.
Qed.

Lemma top_level_items_iff (item : NavigationItem.t) :
  In item (top_level_items db site) <->
  In item (navigation_items db)
  /\ NavigationItem.site_id item = Site.id site
  /\ NavigationItem.parent_id item = None
  /\ NavigationItem.is_active item = true.
Proof.
  unfold top_level_items. rewrite order_by_In, filter_In, !andb_true_iff.
  split.
  - intros (Hin & (Hs & Hp) & Ha). apply Bool.eqb_prop in Ha.
    apply Z.eqb_eq in Hs.
    destruct (NavigationItem.parent_id item); [discriminate|]. auto.
  - intros (Hin & Hs & Hp & Ha). rewrite Hs, Hp, Ha, Z.eqb_refl. auto.
Qed.

(** One level of the menu: the entries of the queried items, in the order
    of the query, each with the menu of its own children. *)
Lemma level_shape (depth : nat) (items : list NavigationItem.t)
  (menu : list nav_entry) :
  traverse
    (fun item =>
       match get_nav_children depth db (NavigationItem.id item) with
       | None => None
       | Some sub =>
           Some (NavEntry (NavigationItem.id item)
                   (NavigationItem.label item) (NavigationItem.url item) sub)
       end) items = Some menu ->
  Forall2
    (fun item e =>
       nav_entry_id e = NavigationItem.id item
       /\ nav_entry_label e = NavigationItem.label item
       /\ nav_entry_url e = NavigationItem.url item
       /\ get_nav_children depth db (NavigationItem.id item)
          = Some (nav_entry_children e))
    items menu.
Proof.
  intros H. apply traverse_some in H.
  apply Forall2_impl with (2 := H). intros item e He.
  destruct (get_nav_children depth db (NavigationItem.id item)) as [sub|];
    [|discriminate].
  injection He as <-. simpl. auto.
Qed.

(** Every entry below a parent stands for an active item with that chain of
    parents, and its children are the active children of that item, in the
    order of the query. *)
Lemma get_nav_children_shape (depth : nat) :
  forall (pid : Z) (menu : list nav_entry),
    get_nav_children depth db pid = Some menu ->
    map nav_entry_id menu
    = map NavigationItem.id (active_children db pid)
    /\ forall (P : NavigationItem.t -> Prop),
         (forall c, In c (active_children db pid) -> P c) ->
         (forall c p, P p -> In c (active_children db (NavigationItem.id p)) ->
                      P c) ->
         forall e, In e (menu_entries menu) ->
           exists item, P item
             /\ nav_entry_id e = NavigationItem.id item
             /\ nav_entry_label e = NavigationItem.label item
             /\ nav_entry_url e = NavigationItem.url item
             /\ map nav_entry_id (nav_entry_children e)
                = map NavigationItem.id
                    (active_children db (NavigationItem.id item)).
Proof.
  induction depth as [|depth IH]; intros pid menu H; [discriminate|].
  simpl in H. apply level_shape in H. split.
  - apply Forall2_map_eq with (1 := H). now intros x y (-> & _).
  - intros P Htop Hstep e He.
    unfold menu_entries in He. apply in_flat_map in He as (y & Hy & Hey).
    destruct (Forall2_in_r _ _ _ H y Hy) as (c & Hc & Hid & Hl & Hu & Hsub).
    destruct (IH _ _ Hsub) as [Hids Hrec].
    destruct y as [yid ylabel yurl ychildren]. simpl in *.
    destruct Hey as [<-|Hey].
    + exists c. simpl. auto.
    + apply (Hrec P); auto.
      intros c' Hc'. apply (Hstep c' c); auto.
Qed.

(** The menu of a site, read off the table.  Its top level lists the
    active items of the site without a parent, in the order of the query;
    every entry, at any level, carries the id, label and URL of a shown
    item, and its children list the active children of that item in the
    order of the query; both queries come ascending in [order_index].  The
    identifiers in the menu are exactly those of the shown items: an item
    is absent as soon as it or one of its ancestors is inactive, and a
    child is shown under its parent whatever site it belongs to. *)
Theorem menu_is_the_tree_of_shown_items (depth : nat)
  (menu : list nav_entry)
  (Hmenu : build_navigation depth db site = Some menu) :
  map nav_entry_id menu
  = map NavigationItem.id (top_level_items db site)
  /\ (forall e, In e (menu_entries menu) ->
        exists item, shown db site item
          /\ nav_entry_id e = NavigationItem.id item
          /\ nav_entry_label e = NavigationItem.label item
          /\ nav_entry_url e = NavigationItem.url item
          /\ map nav_entry_id (nav_entry_children e)
             = map NavigationItem.id
                 (active_children db (NavigationItem.id item)))
  /\ (forall i, In i (menu_ids menu) <->
                exists item, shown db site item /\ NavigationItem.id item = i)
  /\ StronglySorted
       (fun x y => NavigationItem.order_index x <= NavigationItem.order_index y)
       (top_level_items db site)
  /\ (forall pid,
        StronglySorted
          (fun x y => NavigationItem.order_index x
                      <= NavigationItem.order_index y)
          (active_children db pid)).
Proof.
  unfold build_navigation in Hmenu. apply level_shape in Hmenu.
  assert (Htop : map nav_entry_id menu
                 = map NavigationItem.id (top_level_items db site)).
  { apply Forall2_map_eq with (1 := Hmenu). now intros x y (-> & _). }
  assert (Hshown_top : forall c, In c (top_level_items db site) ->
                                 shown db site c).
  { intros c Hc. apply top_level_items_iff in Hc as (H1 & H2 & H3 & H4).
    now apply shown_top. }
  assert (Hshown_step : forall c p,
            shown db site p ->
            In c (active_children db (NavigationItem.id p)) ->
            shown db site c).
  { intros c p Hp Hc. apply active_children_iff in Hc as (H1 & H2 & H3).
    now apply (shown_child db site c p). }
  assert (Hentries : forall e, In e (menu_entries menu) ->
            exists item, shown db site item
              /\ nav_entry_id e = NavigationItem.id item
              /\ nav_entry_label e = NavigationItem.label item
              /\ nav_entry_url e = NavigationItem.url item
              /\ map nav_entry_id (nav_entry_children e)
                 = map NavigationItem.id
                     (active_children db (NavigationItem.id item))).
  { intros e He. unfold menu_entries in He.
    apply in_flat_map in He as (y & Hy & Hey).
    destruct (Forall2_in_r _ _ _ Hmenu y Hy) as (c & Hc & Hid & Hl & Hu & Hsub).
    destruct (get_nav_children_shape depth _ _ Hsub) as [Hids Hrec].
    destruct y as [yid ylabel yurl ychildren]. simpl in *.
    destruct Hey as [<-|Hey].
    - exists c. simpl. auto.
    - apply (Hrec (shown db site)); auto.
      intros c' Hc'. apply (Hshown_step c' c); auto. }
  split; [exact Htop|]. split; [exact Hentries|].
  split; [|split; [apply order_by_sorted | intros pid; apply order_by_sorted]].
  intros i. split.
  - intros Hi. apply menu_ids_entries in Hi as (e & He & <-).
    destruct (Hentries e He) as (item & Hs & Hid & _). eauto.
  - intros (item & Hs & <-).
    assert (Hin : exists e, In e (menu_entries menu)
                            /\ nav_entry_id e = NavigationItem.id item).
    { induction Hs as [item H1 H2 H3 H4 | c p H1 H2 H3 Hp IH].
      - assert (Hitem : In item (top_level_items db site))
          by (apply top_level_items_iff; auto).
        apply (in_map NavigationItem.id) in Hitem. rewrite <- Htop in Hitem.
        apply in_map_iff in Hitem as (e & He & Hine).
        exists e. split; [|exact He].
        unfold menu_entries. apply in_flat_map. exists e.
        split; [exact Hine | apply all_entries_self].
      - destruct IH as (ep & Hep & Hidp).
        destruct (Hentries ep Hep) as (p' & _ & Hid' & _ & _ & Hch).
        assert (Hc : In c (active_children db (NavigationItem.id p)))
          by (apply active_children_iff; auto).
        rewrite <- Hid', Hidp in Hch.
        apply (in_map NavigationItem.id) in Hc. rewrite <- Hch in Hc.
        apply in_map_iff in Hc as (e & He & Hine).
        exists e. split; [|exact He].
        unfold menu_entries in *. apply in_flat_map in Hep as (y & Hy & Hyep).
        apply in_flat_map. exists y. split; [exact Hy|].
        now apply (all_entries_child y ep e). }
    destruct Hin as (e & He & Hid). rewrite <- Hid.
    unfold menu_ids, menu_entries in *.
    apply in_flat_map in He as (y & Hy & Hye).
    apply in_flat_map. exists y. split; [exact Hy|].
    now apply all_entries_id.
Qed.

End MenuShape.

Lemma menu_is_the_tree_of_shown_items_witness :
  In 3 (menu_ids [NavEntry 1 "Home" "/acme/home" [];
                  NavEntry 2 "About" "/acme/about"
                    [NavEntry 3 "Team" "/acme/team" []]])
  <-> exists item, shown acme_db acme item /\ NavigationItem.id item = 3.
Proof.
  exact (proj1 (proj2 (proj2
           (menu_is_the_tree_of_shown_items (engine := scan_order_engine)
              acme_db acme 3 _ eq_refl))) 3).
Defined.

(** ** The prefix made from a restaurant name *)

Module SlugFacts.
Import PyStr.

Lemma slug_char_prefix_char (c : ascii) :
  slug_char c = true -> prefix_char c = true.
Proof. CharFacts.by_cases_on c. Qed.

Lemma slug_char_lower_fixed (c : ascii) :
  slug_char c = true -> lower_char c = c.
Proof. CharFacts.by_cases_on c. Qed.

Lemma slug_char_of_lower (c : ascii) :
  is_alnum_char c || Ascii.eqb c "-" = true ->
  slug_char (lower_char c) = true.
Proof. CharFacts.by_cases_on c. Qed.

Lemma alnum_not_space (c : ascii) :
  is_alnum_char c = true -> isspace c = false.
Proof. CharFacts.by_cases_on c. Qed.

Lemma alnum_not_hyphen (c : ascii) :
  is_alnum_char c = true -> is_char "-" c = false.
Proof. CharFacts.by_cases_on c. Qed.

Lemma forallb_filter_str (keep : ascii -> bool) (s : string) :
  forallb_str keep (filter_str keep s) = true.
Proof.
  induction s as [|c s IH]; simpl; [reflexivity|].
  destruct (keep c) eqn:E; simpl; [now rewrite E|exact IH].
Qed.

Lemma existsb_filter_str (keep q : ascii -> bool) (s : string) :
  (forall c, q c = true -> keep c = true) ->
  existsb_str q (filter_str keep s) = existsb_str q s.
Proof.
  intros H. induction s as [|c s IH]; simpl; [reflexivity|].
  destruct (keep c) eqn:E; simpl; rewrite IH; [reflexivity|].
  destruct (q c) eqn:Eq; [|reflexivity]. now rewrite (H c Eq) in E.
Qed.

Lemma forallb_lstrip (p q : ascii -> bool) (s : string) :
  forallb_str q s = true -> forallb_str q (lstrip p s) = true.
Proof.
  induction s as [|c s IH]; simpl; [reflexivity|].
  intros H. apply andb_true_iff in H as [Hc Hs].
  destruct (p c); [now apply IH | simpl; now rewrite Hc, Hs].
Qed.

Lemma forallb_rstrip (p q : ascii -> bool) (s : string) :
  forallb_str q s = true -> forallb_str q (rstrip p s) = true.
Proof.
  induction s as [|c s IH]; simpl; [reflexivity|].
  intros H. apply andb_true_iff in H as [Hc Hs]. specialize (IH Hs).
  destruct (rstrip p s) as [|d r].
  - destruct (p c); simpl; [reflexivity | now rewrite Hc].
  - change (forallb_str q (String c (String d r)) = true).
    simpl. simpl in IH. now rewrite Hc, IH.
Qed.

Lemma existsb_lstrip (p q : ascii -> bool) (s : string) :
  (forall c, q c = true -> p c = false) ->
  existsb_str q (lstrip p s) = existsb_str q s.
Proof.
  intros H. induction s as [|c s IH]; simpl; [reflexivity|].
  destruct (p c) eqn:E; [|reflexivity].
  rewrite IH. destruct (q c) eqn:Eq; [|reflexivity].
  now rewrite (H c Eq) in E.
Qed.

Lemma existsb_rstrip (p q : ascii -> bool) (s : string) :
  (forall c, q c = true -> p c = false) ->
  existsb_str q (rstrip p s) = existsb_str q s.
Proof.
  intros H. induction s as [|c s IH]; simpl; [reflexivity|].
  destruct (rstrip p s) as [|d r].
  - simpl in IH. rewrite <- IH. destruct (p c) eqn:E; simpl.
    + destruct (q c) eqn:Eq; [|reflexivity]. now rewrite (H c Eq) in E.
    + now rewrite orb_false_r.
  - change (existsb_str q (String c (String d r)))
      with (q c || existsb_str q (String d r)).
    now rewrite IH.
Qed.

Lemma forallb_sub_space_runs (s : string) :
  forallb_str (fun c => is_alnum_char c || isspace c) s = true ->
  forallb_str (fun c => is_alnum_char c || Ascii.eqb c "-")
    (sub_space_runs s) = true.
Proof.
  induction s as [|c s IH]; [reflexivity|].
  intros H. simpl in H. apply andb_true_iff in H as [Hc Hs].
  specialize (IH Hs). simpl.
  destruct (isspace c) eqn:E.
  - destruct s as [|d s']; [reflexivity|].
    destruct (isspace d); [exact IH|].
    change (forallb_str (fun c => is_alnum_char c || Ascii.eqb c "-")
              (String "-" (sub_space_runs (String d s'))) = true).
    simpl. simpl in IH. exact IH.
  - change (forallb_str (fun c => is_alnum_char c || Ascii.eqb c "-")
              (String c (sub_space_runs s)) = true).
    simpl. rewrite orb_false_r in Hc. now rewrite Hc, IH.
Qed.

Lemma forallb_take (q : ascii -> bool) (n : nat) (s : string) :
  forallb_str q s = true -> forallb_str q (take n s) = true.
Proof.
  revert s. induction n as [|n IH]; intros [|c s]; simpl; try reflexivity.
  intros H. apply andb_true_iff in H as [Hc Hs]. now rewrite Hc, IH.
Qed.

Lemma length_take (n : nat) (s : string) :
  (String.length (take n s) <= n)%nat.
Proof.
  revert s. induction n as [|n IH]; intros [|c s]; simpl; try lia.
  specialize (IH s). lia.
Qed.

Lemma length_rstrip (p : ascii -> bool) (s : string) :
  (String.length (rstrip p s) <= String.length s)%nat.
Proof.
  induction s as [|c s IH]; simpl; [lia|].
  destruct (rstrip p s) as [|d r].
  - destruct (p c); simpl; lia.
  - change (S (String.length (String d r)) <= S (String.length s))%nat. lia.
Qed.

Lemma lower_fixed (s : string) :
  forallb_str slug_char s = true -> lower s = s.
Proof.
  induction s as [|c s IH]; simpl; [reflexivity|].
  intros H. apply andb_true_iff in H as [Hc Hs].
  now rewrite (slug_char_lower_fixed c Hc), IH.
Qed.

Lemma forallb_lower_slug (s : string) :
  forallb_str (fun c => is_alnum_char c || Ascii.eqb c "-") s = true ->
  forallb_str slug_char (lower s) = true.
Proof.
  induction s as [|c s IH]; simpl; [reflexivity|].
  intros H. apply andb_true_iff in H as [Hc Hs].
  now rewrite (slug_char_of_lower c Hc), IH.
Qed.

(** A string that starts with a letter or a digit keeps its first
    character through the steps after the filter. *)
Definition alnum_head (s : string) : bool :=
  match s with
  | EmptyString => false
  | String c _ => is_alnum_char c
  end.

Lemma alnum_head_strip (s : string) :
  forallb_str (fun c => is_alnum_char c || isspace c) s = true ->
  existsb_str is_alnum_char s = true ->
  alnum_head (strip s) = true.
Proof.
  intros Hall Hone. unfold strip, strip_chars.
  assert (Hone' : existsb_str is_alnum_char (lstrip isspace s) = true)
    by (rewrite existsb_lstrip; [exact Hone | apply alnum_not_space]).
  assert (Hall' : forallb_str (fun c => is_alnum_char c || isspace c)
                    (lstrip isspace s) = true) by now apply forallb_lstrip.
  destruct (StripFacts.lstrip_head isspace s) as [E | (c & r & E & Hc)];
    rewrite E in *; [discriminate|].
  destruct (StripFacts.rstrip_keeps_head isspace c r Hc) as [r' ->].
  simpl in Hall'. apply andb_true_iff in Hall' as [Hk _].
  simpl. now rewrite Hc, orb_false_r in Hk.
Qed.

Lemma alnum_head_sub_space_runs (s : string) :
  alnum_head s = true -> alnum_head (sub_space_runs s) = true.
Proof.
  destruct s as [|c s]; [discriminate|]. simpl. intros Hc.
  now rewrite (alnum_not_space c Hc).
Qed.

Lemma alnum_head_lower (s : string) :
  alnum_head s = true -> alnum_head (lower s) = true.
Proof.
  destruct s as [|c s]; [discriminate|]. simpl.
  now rewrite CharFacts.alnum_lower_char.
Qed.

Lemma alnum_head_cut (s : string) :
  alnum_head s = true ->
  alnum_head (rstrip (is_char "-") (take 20 s)) = true.
Proof.
  destruct s as [|c s]; [discriminate|]. intros Hc. simpl in Hc.
  change (take 20 (String c s)) with (String c (take 19 s)).
  destruct (StripFacts.rstrip_keeps_head (is_char "-") c (take 19 s)
              (alnum_not_hyphen c Hc)) as [r ->].
  exact Hc.
Qed.

Lemma alnum_head_exists (s : string) :
  alnum_head s = true -> existsb_str is_alnum_char s = true.
Proof. destruct s as [|c s]; [discriminate|]. simpl. now intros ->. Qed.

Lemma all_space_strip (s : string) :
  forallb_str isspace s = true -> strip s = "".
Proof.
  intros H. unfold strip, strip_chars.
  assert (E : lstrip isspace s = "").
  { induction s as [|c s IH]; [reflexivity|]. simpl in *.
    apply andb_true_iff in H as [Hc Hs]. rewrite Hc. now apply IH. }
  now rewrite E.
Qed.

Lemma filter_without_alnum (s : string) :
  existsb_str is_alnum_char s = false ->
  forallb_str isspace
    (filter_str (fun c => is_alnum_char c || isspace c) s) = true.
Proof.
  induction s as [|c s IH]; simpl; [reflexivity|].
  intros H. apply orb_false_iff in H as [Hc Hs]. rewrite Hc. simpl.
  destruct (isspace c) eqn:E; simpl; [rewrite E|]; now apply IH.
Qed.

End SlugFacts.

Lemma create_path_prefix_facts (name : string) :
  (create_path_prefix name = "" <->
   PyStr.existsb_str PyStr.is_alnum_char name = false)
  /\ PyStr.forallb_str slug_char (create_path_prefix name) = true
  /\ (String.length (create_path_prefix name) <= 20)%nat
  /\ (create_path_prefix name <> "" ->
      Site.validate_path_prefix (create_path_prefix name)
      = Accepted (create_path_prefix name))
  /\ (create_path_prefix name = "" ->
      exists message,
        Site.validate_path_prefix (create_path_prefix name)
        = ValueError message).
Proof.
  set (s0 := PyStr.filter_str
               (fun c => PyStr.is_alnum_char c || PyStr.isspace c) name).
  set (s3 := PyStr.lower (PyStr.sub_space_runs (PyStr.strip s0))).
  assert (Hresult : create_path_prefix name
                    = if (20 <? String.length s3)%nat
                      then PyStr.rstrip (PyStr.is_char "-") (PyStr.take 20 s3)
                      else s3) by reflexivity.
  assert (Hall0 : PyStr.forallb_str
                    (fun c => PyStr.is_alnum_char c || PyStr.isspace c) s0
                  = true) by apply SlugFacts.forallb_filter_str.
  assert (Hall3 : PyStr.forallb_str slug_char s3 = true).
  { apply SlugFacts.forallb_lower_slug, SlugFacts.forallb_sub_space_runs.
    unfold PyStr.strip, PyStr.strip_chars.
    now apply SlugFacts.forallb_rstrip, SlugFacts.forallb_lstrip. }
  assert (Hall : PyStr.forallb_str slug_char (create_path_prefix name) = true).
  { rewrite Hresult. destruct (20 <? String.length s3)%nat; [|exact Hall3].
    now apply SlugFacts.forallb_rstrip, SlugFacts.forallb_take. }
  assert (Hlen : (String.length (create_path_prefix name) <= 20)%nat).
  { rewrite Hresult. destruct (20 <? String.length s3)%nat eqn:E.
    - pose proof (SlugFacts.length_rstrip (PyStr.is_char "-")
                    (PyStr.take 20 s3)).
      pose proof (SlugFacts.length_take 20 s3). lia.
    - apply Nat.ltb_ge in E. exact E. }
  assert (Hhead : PyStr.existsb_str PyStr.is_alnum_char name = true ->
                  SlugFacts.alnum_head (create_path_prefix name) = true).
  { intros Hone.
    assert (Hone0 : PyStr.existsb_str PyStr.is_alnum_char s0 = true).
    { unfold s0. rewrite SlugFacts.existsb_filter_str; [exact Hone|].
      intros c ->. reflexivity. }
    assert (H3 : SlugFacts.alnum_head s3 = true).
    { apply SlugFacts.alnum_head_lower, SlugFacts.alnum_head_sub_space_runs.
      now apply SlugFacts.alnum_head_strip. }
    rewrite Hresult. destruct (20 <? String.length s3)%nat; [|exact H3].
    now apply SlugFacts.alnum_head_cut. }
  assert (Hempty : PyStr.existsb_str PyStr.is_alnum_char name = false ->
                   create_path_prefix name = "").
  { intros Hnone. rewrite Hresult.
    assert (E : s3 = "").
    { unfold s3. rewrite (SlugFacts.all_space_strip s0); [reflexivity|].
      now apply SlugFacts.filter_without_alnum. }
    rewrite E. reflexivity. }
  assert (Hiff : create_path_prefix name = "" <->
                 PyStr.existsb_str PyStr.is_alnum_char name = false).
  { split; [|exact Hempty]. intros E.
    destruct (PyStr.existsb_str PyStr.is_alnum_char name) eqn:Hone;
      [|reflexivity].
    specialize (Hhead eq_refl). rewrite E in Hhead. discriminate. }
  split; [exact Hiff|]. split; [exact Hall|]. split; [exact Hlen|]. split.
  - intros Hne.
    assert (Hone : PyStr.existsb_str PyStr.is_alnum_char name = true).
    { destruct (PyStr.existsb_str PyStr.is_alnum_char name) eqn:E;
        [reflexivity|]. exfalso. now apply Hne, Hempty. }
    rewrite validate_path_prefix_decides.
    rewrite (CharFacts.forallb_str_impl slug_char prefix_char _
               SlugFacts.slug_char_prefix_char Hall).
    rewrite (SlugFacts.alnum_head_exists _ (Hhead Hone)). simpl.
    now rewrite (SlugFacts.lower_fixed _ Hall).
  - intros ->. eexists. reflexivity.
Qed.


(** ** Content written by add_content_block.py *)

Module JoinFacts.
Import PyStr.

Lemma split_join (sep : ascii) (items : list string) :
  items <> [] ->
  Forall (fun x => contains sep x = false) items ->
  split sep (join (String sep "") items) = items.
Proof.
  induction items as [|x items IH]; [congruence|]. intros _ Hfree.
  inversion Hfree as [|? ? Hx Hrest]; subst.
  destruct items as [|y items].
  - simpl. now apply PyStrFacts.split_free.
  - change (join (String sep "") (x :: y :: items))
      with (x ++ String sep (join (String sep "") (y :: items))).
    rewrite PyStrFacts.split_app by exact Hx.
    rewrite IH; [reflexivity | discriminate | exact Hrest].
Qed.

Lemma contains_lstrip (c : ascii) (p : ascii -> bool) (s : string) :
  contains c s = false -> contains c (lstrip p s) = false.
Proof.
  induction s as [|d s IH]; simpl; [reflexivity|].
  intros H. apply orb_false_iff in H as [Hd Hs].
  destruct (p d); [now apply IH | simpl; now rewrite Hd, Hs].
Qed.

Lemma contains_rstrip (c : ascii) (p : ascii -> bool) (s : string) :
  contains c s = false -> contains c (rstrip p s) = false.
Proof.
  induction s as [|d s IH]; simpl; [reflexivity|].
  intros H. apply orb_false_iff in H as [Hd Hs]. specialize (IH Hs).
  destruct (rstrip p s) as [|e r].
  - destruct (p d); simpl; [reflexivity | now rewrite Hd].
  - change (contains c (String d (String e r)) = false).
    simpl. simpl in IH. now rewrite Hd, IH.
Qed.

End JoinFacts.

(** The items of a list block are lines without newline, trimmed and not
    empty. *)
Lemma list_items_are_lines (content : string) :
  Forall (fun item => PyStr.contains PyStr.newline item = false
                      /\ PyStr.truthy item = true
                      /\ PyStr.strip item = item)
    (ContentBlock.list_items content).
Proof.
  unfold ContentBlock.list_items. apply Forall_forall. intros item Hitem.
  apply in_map_iff in Hitem as (line & <- & Hline).
  apply filter_In in Hline as [Hline Hne].
  pose proof (PyStrFacts.split_pieces_free PyStr.newline content) as Hfree.
  rewrite Forall_forall in Hfree. specialize (Hfree line Hline).
  split; [|split; [exact Hne | apply StripFacts.strip_idem]].
  unfold PyStr.strip, PyStr.strip_chars.
  now apply JoinFacts.contains_rstrip, JoinFacts.contains_lstrip.
Qed.

(** Joining such lines with newlines and reading the items back gives the
    lines, for the model renderer and for the helper. *)
Lemma list_items_of_joined_lines (items : list string) :
  Forall (fun item => PyStr.contains PyStr.newline item = false
                      /\ PyStr.truthy item = true
                      /\ PyStr.strip item = item) items ->
  ContentBlock.list_items (PyStr.join nl items) = items
  /\ helper_list_items (PyStr.join nl items) = items.
Proof.
  intros H. unfold ContentBlock.list_items, helper_list_items.
  destruct items as [|x items]; [split; reflexivity|].
  unfold nl. rewrite JoinFacts.split_join;
    [|discriminate | apply Forall_impl with (2 := H); now intros a (Ha & _)].
  assert (Hkeep : filter (fun item => PyStr.truthy (PyStr.strip item))
                    (x :: items) = x :: items).
  { apply forallb_filter_id. apply forallb_forall. intros a Ha.
    rewrite Forall_forall in H. destruct (H a Ha) as (_ & Ht & Hs).
    now rewrite Hs. }
  rewrite Hkeep. split; [|reflexivity].
  rewrite <- (map_id (x :: items)) at 2. apply map_ext_in.
  intros a Ha. rewrite Forall_forall in H. now destruct (H a Ha) as (_ & _ & Hs).
Qed.


(** ** Adding a content block *)

Lemma fold_max_ge (l : list Z) :
  forall v, v <= fold_left Z.max l v
            /\ forall x, In x l -> x <= fold_left Z.max l v.
Proof.
  induction l as [|a l IH]; intros v; simpl.
  - split; [lia | contradiction].
  - destruct (IH (Z.max v a)) as [H1 H2]. split; [lia|].
    intros x [<-|Hx]; [lia | now apply H2].
Qed.

Lemma scalar_max_bounds (values : list Z) (x : Z) :
  In x values -> x <= scalar_or_0 (sql_max values).
Proof.
  destruct values as [|v values]; [contradiction|]. intros Hx.
  unfold sql_max, scalar_or_0.
  assert (Hle : x <= fold_left Z.max values v).
  { destruct (fold_max_ge values v) as [H1 H2].
    destruct Hx as [<-|Hx]; [exact H1 | now apply H2]. }
  destruct (fold_left Z.max values v =? 0) eqn:E; [|exact Hle].
  apply Z.eqb_eq in E. lia.
Qed.

Lemma StronglySorted_middle {A : Type} (R : A -> A -> Prop)
  (l1 l2 : list A) (x : A) :
  StronglySorted R (l1 ++ x :: l2) -> Forall (R x) l2.
Proof.
  induction l1 as [|a l1 IH]; simpl; intros H;
    apply StronglySorted_inv in H as [Hs Hall]; [exact Hall | now apply IH].
Qed.

(** In a sorted permutation of [rows ++ [x]], a row whose sort column is
    above all others comes last. *)
Lemma sorted_greatest_last {A : Type} (col : A -> Z) (out rows : list A)
  (x : A) :
  Permutation out (rows ++ [x]) ->
  StronglySorted (fun a b => col a <= col b) out ->
  (forall y, In y rows -> col y < col x) ->
  exists before, out = (before ++ [x])%list /\ Permutation before rows.
Proof.
  intros Hperm Hsorted Hmax.
  assert (Hin : In x out).
  { apply (Permutation_in x (Permutation_sym Hperm)), in_or_app.
    right. now left. }
  apply in_split in Hin as (l1 & l2 & ->).
  assert (Hrest : Permutation (l1 ++ l2) rows).
  { apply Permutation_cons_inv with (a := x).
    apply Permutation_trans with ((l1 ++ x :: l2)%list);
      [apply Permutation_middle|].
    apply Permutation_trans with ((rows ++ [x])%list); [exact Hperm|].
    apply Permutation_sym, Permutation_cons_append. }
  destruct l2 as [|y l2].
  - exists l1. split; [reflexivity|]. now rewrite app_nil_r in Hrest.
  - exfalso. apply StronglySorted_middle in Hsorted.
    inversion Hsorted as [|? ? Hxy _]; subst.
    assert (Hy : In y rows).
    { apply (Permutation_in y Hrest), in_or_app. right. now left. }
    specialize (Hmax y Hy). lia.
Qed.




(** ** Content goes into the HTML as it is *)

Lemma append_assoc (x y z : string) : (x ++ y) ++ z = x ++ y ++ z.
Proof. induction x as [|c x IH]; simpl; [reflexivity | now rewrite IH]. Qed.

Lemma render_arm_list (tag : string) :
  ContentBlock.render_arm tag = ContentBlock.List -> tag = "list".
Proof.
  unfold ContentBlock.render_arm.
  destruct (String.eqb tag "text"); [discriminate|].
  destruct (String.eqb tag "html"); [discriminate|].
  destruct (String.eqb tag "image"); [discriminate|].
  destruct (String.eqb tag "list") eqn:E; [now apply String.eqb_eq in E|].
  destruct (String.eqb tag "quote"); [discriminate|].
  destruct (String.eqb tag "code"); discriminate.
Qed.

Lemma helper_arm_list (tag : string) :
  helper_arm_of tag = HList -> tag = "list".
Proof.
  unfold helper_arm_of.
  destruct (String.eqb tag "text"); [discriminate|].
  destruct (String.eqb tag "html"); [discriminate|].
  destruct (String.eqb tag "image"); [discriminate|].
  destruct (String.eqb tag "list") eqn:E; [now apply String.eqb_eq in E|].
  discriminate.
Qed.

(** For every block that is not a list, both renderers put the content
    between a fixed opening and a fixed closing, which depend on the type
    and the title and not on the content: whatever the content holds,
    markup included, reaches the page unchanged and unescaped. *)
Theorem content_is_inserted_verbatim (block : ContentBlock.t)
  (Hnot_list : ContentBlock.block_type block <> "list") :
  (exists opening closing, forall content,
      ContentBlock.render (with_content block content)
      = opening ++ content ++ closing)
  /\ (exists opening closing, forall content,
        render_content_blocks [with_content block content]
        = opening ++ content ++ closing).
Proof.
  split.
  - unfold ContentBlock.render, with_content.
    cbn [ContentBlock.block_type ContentBlock.content ContentBlock.title].
    destruct (ContentBlock.render_arm (ContentBlock.block_type block)) eqn:E.
    + exists "<div class='content-block text'><p>", "</p></div>".
      intros content. reflexivity.
    + exists "<div class='content-block html'>", "</div>".
      intros content. reflexivity.
    + exists "<div class='content-block image'><img src='",
        ("' alt='" ++ str_or (ContentBlock.title block) "Content Image"
           ++ "'></div>").
      intros content. reflexivity.
    + now apply render_arm_list in E.
    + exists "<div class='content-block quote'><blockquote>",
        "</blockquote></div>".
      intros content. reflexivity.
    + exists "<div class='content-block code'><pre><code>",
        "</code></pre></div>".
      intros content. reflexivity.
    + exists ("<div class='content-block "
              ++ ContentBlock.block_type block ++ "'>"), "</div>".
      intros content. now rewrite !append_assoc.
  - unfold render_content_blocks, render_block_helper, with_content.
    cbn [map PyStr.join ContentBlock.block_type ContentBlock.content].
    destruct (helper_arm_of (ContentBlock.block_type block)) eqn:E.
    + exists "<div class='content-block text'>", "</div>".
      intros content. reflexivity.
    + exists "<div class='content-block html'>", "</div>".
      intros content. reflexivity.
    + exists "<div class='content-block image'><img src='",
        "' alt='Content Image'></div>".
      intros content. reflexivity.
    + now apply helper_arm_list in E.
    + exists "<div class='content-block unknown'>", "</div>".
      intros content. reflexivity.
Qed.

Lemma content_is_inserted_verbatim_witness :
  exists opening closing, forall content,
    ContentBlock.render (with_content hello_quote content)
    = opening ++ content ++ closing.
Proof.
  refine (proj1 (content_is_inserted_verbatim hello_quote _)). discriminate.
Defined.

(** ** The site added by add_restaurant.py *)

Lemma filter_none {A : Type} (f : A -> bool) (l : list A) :
  (forall x, In x l -> f x = false) -> filter f l = [].
Proof.
  induction l as [|a l IH]; simpl; intros H; [reflexivity|].
  rewrite (H a (or_introl eq_refl)). apply IH. intros x Hx. apply H. now right.
Qed.

Lemma no_site_with_prefix (db : Db) (prefix : string) :
  hd_error (filter (fun s => String.eqb (Site.path_prefix s) prefix) (sites db))
  = None <->
  (forall s, In s (sites db) -> Site.path_prefix s <> prefix).
Proof.
  rewrite hd_filter_none. split.
  - intros H s Hs E. specialize (H s Hs). rewrite E, String.eqb_refl in H.
    discriminate.
  - intros H s Hs. apply String.eqb_neq. now apply H.
Qed.

(** The rows the script commits. *)
Lemma add_restaurant_site_rows (site_id nav_id page_id block_id : Z)
  (db : Db) (name description : string) :
  (forall s, In s (sites db) ->
             Site.path_prefix s <> create_path_prefix name) ->
  create_path_prefix name <> "" ->
  exists db',
    add_restaurant_site site_id nav_id page_id block_id db name description
    = Committed db'
    /\ sites db'
       = (sites db
            ++ [Site.mk site_id (create_path_prefix name) name "corporate"
                  true])%list
    /\ pages db'
       = (pages db
            ++ [Page.mk page_id site_id "home" name "standard" true;
                Page.mk (page_id + 1) site_id "menu" "Our Menu" "standard" true;
                Page.mk (page_id + 2) site_id "about" "About Us" "standard"
                  true;
                Page.mk (page_id + 3) site_id "reservations"
                  "Make a Reservation" "standard" true])%list
    /\ navigation_items db'
       = (navigation_items db
            ++ [NavigationItem.mk nav_id site_id "Home" "/home" None 1 false
                  true;
                NavigationItem.mk (nav_id + 1) site_id "Menu" "/menu" None 2
                  false true;
                NavigationItem.mk (nav_id + 2) site_id "About" "/about" None 3
                  false true;
                NavigationItem.mk (nav_id + 3) site_id "Reservations"
                  "/reservations" None 4 false true])%list
    /\ map (fun b => (ContentBlock.page_id b, ContentBlock.block_type b,
                      ContentBlock.order_index b))
         (skipn (List.length (content_blocks db)) (content_blocks db'))
       = [(page_id, "text", 1); (page_id, "list", 2);
          (page_id + 1, "text", 1); (page_id + 1, "list", 2);
          (page_id + 1, "text", 3);
          (page_id + 2, "text", 1); (page_id + 2, "quote", 2);
          (page_id + 3, "text", 1); (page_id + 3, "html", 2)]
    /\ firstn (List.length (content_blocks db)) (content_blocks db')
       = content_blocks db.
Proof.
  intros Hnone Hne. unfold add_restaurant_site.
  rewrite (proj2 (no_site_with_prefix db (create_path_prefix name)) Hnone).
  destruct (create_path_prefix_facts name) as (_ & _ & _ & Hvalid & _).
  unfold new_site. rewrite (Hvalid Hne). cbn [vbind].
  eexists. split; [reflexivity|]. cbn [sites pages navigation_items
                                        content_blocks Site.id Page.id].
  split; [reflexivity|]. split; [reflexivity|]. split; [reflexivity|].
  split.
  - rewrite skipn_app, skipn_all, Nat.sub_diag. reflexivity.
  - rewrite firstn_app, firstn_all, Nat.sub_diag. simpl. apply app_nil_r.
Qed.



